(** * Helm chart index filtering (pkg/utils/helmrepo.go)

    A shallow embedding of the helm-repository helpers of the subscription
    operator: [GetPackageAlias], [GenerateHelmIndexFile], [filterCharts],
    [removeNoMatchingName], [filterOnVersion], [checkKeywords],
    [checkTillerVersion] and [checkVersion].

    Go maps are finite maps ([gmap]); a [range] over a map visits its keys
    in an order the runtime picks, so every loop over a key snapshot is
    written over an explicit key list and shown not to depend on its order.
    Calls to [klog] only write log lines and are left out. *)

From Stdlib Require Import Ascii String NArith.
From stdpp Require Import gmap strings list fin_maps.

Open Scope string_scope.

(** ** Data model *)

(** Errors carry their message. *)
Definition error := string.

(** k8s.io/apimachinery [metav1.LabelSelector]. *)
Module metav1.
Inductive LabelSelectorOperator := In_ | NotIn | Exists | DoesNotExist.

Record LabelSelectorRequirement := {
  Key : string;
  Operator : LabelSelectorOperator;
  Values : list string
}.

Record LabelSelector := {
  MatchLabels : gmap string string;
  MatchExpressions : list LabelSelectorRequirement
}.
End metav1.

(** k8s.io/helm [chart.Metadata]: the fields of Chart.yaml the helpers read. *)
Module chart.
Record Metadata := {
  Name : string;
  Version : string;
  TillerVersion : string;
  Keywords : list string;
  Description : string
}.
End chart.

(** k8s.io/helm [repo.ChartVersion] and [repo.IndexFile].  A ChartVersion
    is reached through a pointer and embeds a pointer to its Metadata; both
    are non-nil in every index built by [IndexFile.Add], and the helpers
    never write through them, so the records are plain values here. *)
Module repo.
Record ChartVersion := {
  Metadata : chart.Metadata;
  URLs : list string;
  Digest : string
}.

Definition GetName (cv : ChartVersion) : string := chart.Name (Metadata cv).
Definition GetVersion (cv : ChartVersion) : string := chart.Version (Metadata cv).
Definition GetTillerVersion (cv : ChartVersion) : string :=
  chart.TillerVersion (Metadata cv).

Record IndexFile := {
  APIVersion : string;
  Entries : gmap string (list ChartVersion)
}.

Definition NewIndexFile : IndexFile :=
  {| APIVersion := "v1"; Entries := ∅ |}.

Definition setEntries (i : IndexFile) (E : gmap string (list ChartVersion)) : IndexFile :=
  {| APIVersion := APIVersion i; Entries := E |}.
End repo.

(** github.com/blang/semver: a parsed version, and a range as the predicate
    [ParseRange] returns ([type Range func(Version) bool]). *)
Module semver.
Record PRVersion := {
  VersionStr : string;
  VersionNum : N;
  IsNum : bool
}.

Record Version := {
  Major : N;
  Minor : N;
  Patch : N;
  Pre : list PRVersion;
  Build : list string
}.

Definition Range := Version → bool.
End semver.

(** The subscription API types ([appv1]), restricted to what the helpers
    read.  The field [PackageFilter] of [SubscriptionSpec] is a pointer (to
    the type written [PackageFilterT] here) and [Annotations] a map that may
    be nil, so both are options. *)
Module appv1.
Record Overrides := {
  PackageAlias : string;
  PackageName : string
}.

Record PackageFilterT := {
  LabelSelector : option metav1.LabelSelector;
  Annotations : option (gmap string string);
  Version : string
}.

Record SubscriptionSpec := {
  Channel : string;
  Package : string;
  PackageFilter : option PackageFilterT;
  PackageOverrides : list Overrides
}.

Record Subscription := {
  Namespace : string;
  Name : string;
  Spec : SubscriptionSpec
}.
End appv1.

(** The result of a call that may panic (an index out of range). *)
Inductive outcome (A : Type) : Type :=
  | Panic : outcome A
  | Return : A → outcome A.
Arguments Panic {A}.
Arguments Return {A} _.

(** The keys of a map in the order a [range] visits them. *)
Definition range_keys {V : Type} (m : gmap string V) : list string :=
  (map_to_list m).*1.

(** ** GetPackageAlias *)

Fixpoint GetPackageAlias_loop (overrides : list appv1.Overrides) (packageName : string) : string :=
  match overrides with
  | [] => EmptyString
  | o :: rest =>
      if decide (appv1.PackageName o = packageName) then
        if decide (appv1.PackageAlias o ≠ EmptyString) then appv1.PackageAlias o
        else GetPackageAlias_loop rest packageName
      else GetPackageAlias_loop rest packageName
  end.

Definition GetPackageAlias (sub : appv1.Subscription) (packageName : string) : string :=
  GetPackageAlias_loop (appv1.PackageOverrides (appv1.Spec sub)) packageName.

(** The alias as the documentation words it: the alias of the first
    override that names the package and has a non-empty alias. *)
Definition GetPackageAlias_spec (sub : appv1.Subscription) (packageName : string) : string :=
  match List.find (λ o, bool_decide (appv1.PackageName o = packageName ∧
                                     appv1.PackageAlias o ≠ EmptyString))
                  (appv1.PackageOverrides (appv1.Spec sub)) with
  | Some o => appv1.PackageAlias o
  | None => EmptyString
  end.

(** ** A reference instance of the collaborators

    The helpers call into Go's standard library, blang/semver, helm's repo
    package and [KeywordsChecker].  The theorems below hold for every
    implementation of those; the definitions of this module are one
    implementation, used to run the helpers on concrete inputs. *)
Module Reference.

(** *** strings and path/filepath *)

Definition slash : ascii := "/"%char.

Definition of_chars (l : list ascii) : string := string_of_list_ascii l.
Definition chars (s : string) : list ascii := list_ascii_of_string s.

(** [genSplit] cuts [s] at every occurrence of a non-empty [sep], scanning
    from the left; [sepSave] keeps the separator at the end of each piece
    ([strings.SplitAfter]) or drops it ([strings.Split]). *)
Fixpoint genSplit (sepSave : bool) (sep s : string) (skip : nat) (cur : string) : list string :=
  match s with
  | EmptyString => [cur]
  | String c s' =>
      match skip with
      | S n => genSplit sepSave sep s' n cur
      | O =>
          if String.prefix sep s then
            (if sepSave then cur +:+ sep else cur)
              :: genSplit sepSave sep s' (String.length sep - 1) EmptyString
          else genSplit sepSave sep s' 0 (cur +:+ String c EmptyString)
      end
  end.

Definition explode (s : string) : list string :=
  (λ c, String c EmptyString) <$> chars s.

Definition strings_Split (s sep : string) : list string :=
  if decide (sep = EmptyString) then explode s else genSplit false sep s 0 EmptyString.

Definition strings_SplitAfter (s sep : string) : list string :=
  if decide (sep = EmptyString) then explode s else genSplit true sep s 0 EmptyString.

Fixpoint dropSlashes (l : list ascii) : list ascii :=
  match l with
  | c :: l' => if decide (c = slash) then dropSlashes l' else l
  | [] => []
  end.

Fixpoint takeElement (l : list ascii) : list ascii :=
  match l with
  | c :: l' => if decide (c = slash) then [] else c :: takeElement l'
  | [] => []
  end.

(** [filepath.Base] on a slash-separated path. *)
Definition filepath_Base (path : string) : string :=
  if decide (path = EmptyString) then "."
  else
    let stripped := dropSlashes (rev (chars path)) in
    let last := of_chars (rev (takeElement stripped)) in
    if decide (last = EmptyString) then "/" else last.

(** *** blang/semver *)

Definition is_digit (c : ascii) : bool :=
  let n := N_of_ascii c in (48 <=? n)%N && (n <=? 57)%N.

Definition is_alpha (c : ascii) : bool :=
  let n := N_of_ascii c in
  ((97 <=? n)%N && (n <=? 122)%N) || ((65 <=? n)%N && (n <=? 90)%N) || (n =? 45)%N.

Definition containsOnly (ok : ascii → bool) (s : string) : bool := forallb ok (chars s).

Definition hasLeadingZeroes (s : string) : bool :=
  match s with
  | String c (String _ _) => bool_decide (c = "0"%char)
  | _ => false
  end.

Definition digits_value (s : string) : N :=
  foldl (λ acc c, (10 * acc + (N_of_ascii c - 48))%N) 0%N (chars s).

(** [strconv.ParseUint(s, 10, 64)] on a string of digits. *)
Definition ParseUint (s : string) : option N :=
  if decide (s = EmptyString) then None
  else if containsOnly is_digit s then
    let n := digits_value s in
    if (n <? 2 ^ 64)%N then Some n else None
  else None.

Definition parseNumber (s : string) : option N :=
  if negb (containsOnly is_digit s) then None
  else if hasLeadingZeroes s then None
  else ParseUint s.

(** The part of [s] before and after the first [c], when there is one. *)
Fixpoint cutAt (c : ascii) (s : string) : option (string * string) :=
  match s with
  | EmptyString => None
  | String d s' =>
      if decide (d = c) then Some (EmptyString, s')
      else match cutAt c s' with
           | Some (a, b) => Some (String d a, b)
           | None => None
           end
  end.

Definition NewPRVersion (s : string) : option semver.PRVersion :=
  if decide (s = EmptyString) then None
  else if containsOnly is_digit s then
    if hasLeadingZeroes s then None
    else match ParseUint s with
         | Some n => Some {| semver.VersionStr := EmptyString; semver.VersionNum := n;
                             semver.IsNum := true |}
         | None => None
         end
  else if containsOnly (λ c, is_alpha c || is_digit c) s then
    Some {| semver.VersionStr := s; semver.VersionNum := 0%N; semver.IsNum := false |}
  else None.

Fixpoint parsePre (l : list string) : option (list semver.PRVersion) :=
  match l with
  | [] => Some []
  | s :: l' =>
      match NewPRVersion s with
      | Some p => match parsePre l' with Some ps => Some (p :: ps) | None => None end
      | None => None
      end
  end.

Definition buildOk (s : string) : bool :=
  negb (bool_decide (s = EmptyString)) && containsOnly (λ c, is_alpha c || is_digit c) s.

(** [semver.Parse]: MAJOR.MINOR.PATCH, then an optional "-" pre-release and
    an optional "+" build part, each a dot-separated list. *)
Definition semver_Parse (s : string) : option semver.Version :=
  if decide (s = EmptyString) then None
  else
    match cutAt "."%char s with
    | None => None
    | Some (majorStr, rest) =>
        match cutAt "."%char rest with
        | None => None
        | Some (minorStr, patchStr0) =>
            match parseNumber majorStr, parseNumber minorStr with
            | Some major, Some minor =>
                let '(patchStr1, build) :=
                  match cutAt "+"%char patchStr0 with
                  | Some (a, b) => (a, strings_Split b ".")
                  | None => (patchStr0, [])
                  end in
                let '(patchStr, prerelease) :=
                  match cutAt "-"%char patchStr1 with
                  | Some (a, b) => (a, strings_Split b ".")
                  | None => (patchStr1, [])
                  end in
                match parseNumber patchStr, parsePre prerelease with
                | Some patch, Some pre =>
                    if forallb buildOk build then
                      Some {| semver.Major := major; semver.Minor := minor;
                              semver.Patch := patch; semver.Pre := pre;
                              semver.Build := build |}
                    else None
                | _, _ => None
                end
            | _, _ => None
            end
        end
    end.

Fixpoint compareBytes (a b : list ascii) : comparison :=
  match a, b with
  | [], [] => Eq
  | [], _ :: _ => Lt
  | _ :: _, [] => Gt
  | x :: a', y :: b' =>
      match (N_of_ascii x ?= N_of_ascii y)%N with
      | Eq => compareBytes a' b'
      | c => c
      end
  end.

Definition comparePR (v o : semver.PRVersion) : comparison :=
  match semver.IsNum v, semver.IsNum o with
  | true, false => Lt
  | false, true => Gt
  | true, true => (semver.VersionNum v ?= semver.VersionNum o)%N
  | false, false => compareBytes (chars (semver.VersionStr v)) (chars (semver.VersionStr o))
  end.

Fixpoint comparePre (v o : list semver.PRVersion) : comparison :=
  match v, o with
  | [], [] => Eq
  | [], _ :: _ => Lt
  | _ :: _, [] => Gt
  | x :: v', y :: o' =>
      match comparePR x y with
      | Eq => comparePre v' o'
      | c => c
      end
  end.

(** [Version.Compare]: numeric core first; a version without pre-release
    is above the same core with one. *)
Definition Compare (v o : semver.Version) : comparison :=
  match (semver.Major v ?= semver.Major o)%N with
  | Eq =>
      match (semver.Minor v ?= semver.Minor o)%N with
      | Eq =>
          match (semver.Patch v ?= semver.Patch o)%N with
          | Eq =>
              match semver.Pre v, semver.Pre o with
              | [], [] => Eq
              | [], _ :: _ => Gt
              | _ :: _, [] => Lt
              | pv, po => comparePre pv po
              end
          | c => c
          end
      | c => c
      end
  | c => c
  end.

(** The comparator a range term starts with; no operator means equality. *)
Definition parseComparator (op : string) : option (comparison → bool) :=
  if decide (op = "==" ∨ op = EmptyString ∨ op = "=") then
    Some (λ c, match c with Eq => true | _ => false end)
  else if decide (op = ">") then Some (λ c, match c with Gt => true | _ => false end)
  else if decide (op = ">=") then Some (λ c, match c with Lt => false | _ => true end)
  else if decide (op = "<") then Some (λ c, match c with Lt => true | _ => false end)
  else if decide (op = "<=") then Some (λ c, match c with Gt => false | _ => true end)
  else if decide (op = "!" ∨ op = "!=") then
    Some (λ c, match c with Eq => false | _ => true end)
  else None.

(** [splitComparatorVersion]: the operator is what precedes the first digit. *)
Fixpoint splitComparatorVersion (s : string) : option (string * string) :=
  match s with
  | EmptyString => None
  | String c s' =>
      if is_digit c then Some (EmptyString, s)
      else match splitComparatorVersion s' with
           | Some (op, v) => Some (String c op, v)
           | None => None
           end
  end.

Definition parseTerm (t : string) : option semver.Range :=
  match splitComparatorVersion t with
  | None => None
  | Some (opStr, vStr) =>
      match parseComparator opStr, semver_Parse vStr with
      | Some c, Some o => Some (λ v, c (Compare v o))
      | _, _ => None
      end
  end.

Fixpoint parseTerms (ts : list string) : option semver.Range :=
  match ts with
  | [] => None
  | [t] => parseTerm t
  | t :: ts' =>
      match parseTerm t, parseTerms ts' with
      | Some f, Some g => Some (λ v, f v && g v)
      | _, _ => None
      end
  end.

(** [semver.ParseRange] on the conjunctive fragment: comparator terms
    separated by single spaces, such as ">=1.2.3 <2.0.0", all of which must
    hold.  Alternatives ("||") and wildcards are not part of this
    instance and are rejected by it. *)
Definition semver_ParseRange (s : string) : option semver.Range :=
  parseTerms (List.filter (λ t, negb (bool_decide (t = EmptyString))) (strings_Split s " ")).

(** *** KeywordsChecker *)

Definition requirementMatches (ls : gmap string string) (r : metav1.LabelSelectorRequirement) : bool :=
  match metav1.Operator r with
  | metav1.In_ =>
      match ls !! metav1.Key r with
      | Some v => bool_decide (v ∈ metav1.Values r)
      | None => false
      end
  | metav1.NotIn =>
      match ls !! metav1.Key r with
      | Some v => negb (bool_decide (v ∈ metav1.Values r))
      | None => true
      end
  | metav1.Exists => bool_decide (is_Some (ls !! metav1.Key r))
  | metav1.DoesNotExist => bool_decide (ls !! metav1.Key r = None)
  end.

(** Modelled from the spec: [KeywordsChecker] is defined in another file of
    package utils.  An absent selector accepts everything; otherwise the
    keywords are label keys that exist (each bound to "true") and every
    requirement of the selector must hold. *)
Definition KeywordsChecker (labelSelector : option metav1.LabelSelector) (ks : list string) : bool :=
  match labelSelector with
  | None => true
  | Some sel =>
      let ls : gmap string string := list_to_map ((λ k, (k, "true")) <$> ks) in
      forallb (λ kv, bool_decide (ls !! kv.1 = Some kv.2)) (map_to_list (metav1.MatchLabels sel))
      && forallb (requirementMatches ls) (metav1.MatchExpressions sel)
  end.

(** *** helm's repo package and chartutil *)

(** [chartutil.LoadChartfile] over a fixed set of files. *)
Definition LoadChartfile (files : gmap string chart.Metadata) (filename : string)
    : chart.Metadata + error :=
  match files !! filename with
  | Some md => inl md
  | None => inr ("open " +:+ filename +:+ ": no such file or directory")
  end.

Definition joinURL (baseURL file : string) : string :=
  match rev (chars baseURL) with
  | c :: _ => if decide (c = slash) then baseURL +:+ file else baseURL +:+ "/" +:+ file
  | [] => file
  end.

(** [IndexFile.Add]: a new ChartVersion at the end of the bucket of the
    chart's name. *)
Definition IndexFile_Add (i : repo.IndexFile) (md : chart.Metadata)
    (filename baseURL digest : string) : repo.IndexFile :=
  let u := if decide (baseURL ≠ EmptyString) then joinURL baseURL filename else filename in
  let cr := {| repo.Metadata := md; repo.URLs := [u]; repo.Digest := digest |} in
  repo.setEntries i
    (<[chart.Name md := (default [] (repo.Entries i !! chart.Name md) ++ [cr])%list]>
       (repo.Entries i)).

(** [ChartVersions.Less]: a version that fails to parse sorts to the back. *)
Definition Less (a b : repo.ChartVersion) : bool :=
  match semver_Parse (repo.GetVersion a) with
  | None => true
  | Some i =>
      match semver_Parse (repo.GetVersion b) with
      | None => false
      | Some j => match Compare i j with Lt => true | _ => false end
      end
  end.

Fixpoint insertDesc (x : repo.ChartVersion) (l : list repo.ChartVersion) : list repo.ChartVersion :=
  match l with
  | [] => [x]
  | y :: l' => if Less x y then y :: insertDesc x l' else x :: l
  end.

(** [IndexFile.SortEntries]: every bucket in descending version order. *)
Definition SortEntries (i : repo.IndexFile) : repo.IndexFile :=
  repo.setEntries i (foldr insertDesc [] <$> repo.Entries i).

End Reference.

(** ** Sample inputs *)
Module Samples.

Definition metadata (name version tillerVersion : string) (keywords : list string) : chart.Metadata :=
  {| chart.Name := name; chart.Version := version; chart.TillerVersion := tillerVersion;
     chart.Keywords := keywords; chart.Description := "A Helm chart for Kubernetes" |}.

Definition chartVersion (name version tillerVersion : string) (keywords : list string)
    : repo.ChartVersion :=
  {| repo.Metadata := metadata name version tillerVersion keywords;
     repo.URLs := ["charts/" +:+ name];
     repo.Digest := "generated-by-multicloud-operators-subscription" |}.

Definition packageFilter (selector : option metav1.LabelSelector)
    (tillerVersion : option string) (version : string) : appv1.PackageFilterT :=
  {| appv1.LabelSelector := selector;
     appv1.Annotations := (λ t, {[ "tillerVersion" := t ]}) <$> tillerVersion;
     appv1.Version := version |}.

Definition subscription (package : string) (pf : option appv1.PackageFilterT)
    (overrides : list appv1.Overrides) : appv1.Subscription :=
  {| appv1.Namespace := "default"; appv1.Name := "sample";
     appv1.Spec := {| appv1.Channel := "dev/charts"; appv1.Package := package;
                      appv1.PackageFilter := pf; appv1.PackageOverrides := overrides |} |}.

Definition index (entries : list (string * list repo.ChartVersion)) : repo.IndexFile :=
  {| repo.APIVersion := "v1"; repo.Entries := list_to_map entries |}.

Definition app_1_0_0 : repo.ChartVersion := chartVersion "app" "1.0.0" EmptyString [].
Definition app_2_0_0 : repo.ChartVersion := chartVersion "app" "2.0.0" EmptyString [].
Definition app_malformed : repo.ChartVersion := chartVersion "app" "not-a-version" EmptyString [].
Definition db_0_1_0 : repo.ChartVersion := chartVersion "db" "0.1.0" EmptyString [].

(** Two charts that say which tiller they need: one as a range, the way
    Chart.yaml carries it, and one as a single version. *)
Definition app_tiller_range : repo.ChartVersion := chartVersion "app" "1.0.0" ">=2.4.0" [].
Definition app_tiller_exact : repo.ChartVersion := chartVersion "app" "1.0.0" "2.5.0" [].

Definition app_db : repo.IndexFile :=
  index [("app", [app_2_0_0; app_1_0_0]); ("db", [db_0_1_0])].
Definition app_with_malformed : repo.IndexFile :=
  index [("app", [app_2_0_0; app_malformed; app_1_0_0]); ("db", [db_0_1_0])].

Definition only_malformed : repo.IndexFile := index [("app", [app_malformed])].

Definition sub_nameless : appv1.Subscription := subscription EmptyString None [].
Definition sub_app : appv1.Subscription := subscription "app" None [].
Definition sub_app_range : appv1.Subscription :=
  subscription "app" (Some (packageFilter None None ">=1.5.0")) [].
Definition sub_tiller_exact : appv1.Subscription :=
  subscription "app" (Some (packageFilter None (Some "2.5.0") EmptyString)) [].
Definition sub_tiller_range : appv1.Subscription :=
  subscription "app" (Some (packageFilter None (Some ">=2.0.0") EmptyString)) [].

Definition sub_app_above : appv1.Subscription :=
  subscription "app" (Some (packageFilter None None ">=3.0.0")) [].
Definition sub_web : appv1.Subscription := subscription "web" None [].
Definition sub_app_unparsable : appv1.Subscription :=
  subscription "app" (Some (packageFilter None None "latest")) [].

(** A checkout under /tmp/repo with two charts that load and one
    directory, charts/broken, without a Chart.yaml. *)
Definition files : gmap string chart.Metadata :=
  {[ "/tmp/repo/charts/app/Chart.yaml" := metadata "app" "1.0.0" EmptyString [];
     "/tmp/repo/charts/db/Chart.yaml" := metadata "db" "0.1.0" EmptyString [] ]}.

End Samples.

Section helmrepo.

Set Default Proof Using "Type".

(** *** Collaborators outside this file *)

(** [KeywordsChecker] lives elsewhere in package utils; [semver.Parse] and
    [semver.ParseRange] come from blang/semver.  The error of a failed
    parse is only logged, so a failed parse is [None].  Nothing is assumed
    of these functions, except where a theorem says so: what the design
    document states of [KeywordsChecker] without a selector is a hypothesis
    of the one theorem that needs it. *)
Variable KeywordsChecker : option metav1.LabelSelector → list string → bool.
Variable semver_Parse : string → option semver.Version.
Variable semver_ParseRange : string → option semver.Range.

(** [filepath.Base], [strings.Split] and [strings.SplitAfter] from Go's
    standard library, [chartutil.LoadChartfile], and the methods [Add] and
    [SortEntries] of helm's [repo.IndexFile]. *)
Variable filepath_Base : string → string.
Variable strings_Split : string → string → list string.
Variable strings_SplitAfter : string → string → list string.
Variable LoadChartfile : string → chart.Metadata + error.
Variable IndexFile_Add : repo.IndexFile → chart.Metadata → string → string → string → repo.IndexFile.
Variable SortEntries : repo.IndexFile → repo.IndexFile.

(** ** Per-version checks *)

Definition checkKeywords (sub : appv1.Subscription) (chartVersion : repo.ChartVersion) : bool :=
  let labelSelector :=
    match appv1.PackageFilter (appv1.Spec sub) with
    | Some pf => appv1.LabelSelector pf
    | None => None
    end in
  KeywordsChecker labelSelector (chart.Keywords (repo.Metadata chartVersion)).

Definition checkTillerVersion (sub : appv1.Subscription) (chartVersion : repo.ChartVersion) : bool :=
  match appv1.PackageFilter (appv1.Spec sub) with
  | Some pf =>
      match appv1.Annotations pf with
      | Some annotations =>
          match annotations !! "tillerVersion" with
          | Some filterTillerVersion =>
              let tillerVersion := repo.GetTillerVersion chartVersion in
              if decide (tillerVersion ≠ EmptyString) then
                match semver_ParseRange tillerVersion with
                | None => false
                | Some tillerVersionVersion =>
                    match semver_Parse filterTillerVersion with
                    | None => false
                    | Some filterTillerVersion' => tillerVersionVersion filterTillerVersion'
                    end
                end
              else true
          | None => true
          end
      | None => true
      end
  | None => true
  end.

Definition checkVersion (sub : appv1.Subscription) (chartVersion : repo.ChartVersion) : bool :=
  match appv1.PackageFilter (appv1.Spec sub) with
  | Some pf =>
      if decide (appv1.Version pf ≠ EmptyString) then
        let version := repo.GetVersion chartVersion in
        match semver_Parse version with
        | None => false
        | Some versionVersion =>
            match semver_ParseRange (appv1.Version pf) with
            | None => false
            | Some filterVersion => filterVersion versionVersion
            end
        end
      else true
  | None => true
  end.

(** ** removeNoMatchingName *)

Definition removeNoMatchingName_loop (package : string) (keys : list string)
    (entries : gmap string (list repo.ChartVersion)) : gmap string (list repo.ChartVersion) :=
  foldl (λ E k, if decide (k ≠ package) then delete k E else E) entries keys.

Definition removeNoMatchingName (sub : appv1.Subscription) (indexFile : repo.IndexFile)
    : repo.IndexFile * option error :=
  if decide (appv1.Package (appv1.Spec sub) ≠ EmptyString) then
    (repo.setEntries indexFile
       (removeNoMatchingName_loop (appv1.Package (appv1.Spec sub))
          (range_keys (repo.Entries indexFile)) (repo.Entries indexFile)),
     None)
  else
    (indexFile,
     Some ("subsciption.spec.name is missing for subscription: "
           +:+ appv1.Namespace sub +:+ "/" +:+ appv1.Name sub)).

(** ** filterOnVersion *)

Definition keepVersion (sub : appv1.Subscription) (chartVersion : repo.ChartVersion) : bool :=
  checkKeywords sub chartVersion && checkTillerVersion sub chartVersion
  && checkVersion sub chartVersion.

Definition filterOnVersion_step (sub : appv1.Subscription)
    (entries : gmap string (list repo.ChartVersion)) (k : string)
    : gmap string (list repo.ChartVersion) :=
  let chartVersions := default [] (entries !! k) in
  let newChartVersions := List.filter (keepVersion sub) chartVersions in
  if decide (0 < length newChartVersions) then <[k := newChartVersions]> entries
  else delete k entries.

Definition filterOnVersion_loop (sub : appv1.Subscription) (keys : list string)
    (entries : gmap string (list repo.ChartVersion)) : gmap string (list repo.ChartVersion) :=
  foldl (filterOnVersion_step sub) entries keys.

Definition filterOnVersion (sub : appv1.Subscription) (indexFile : repo.IndexFile) : repo.IndexFile :=
  repo.setEntries indexFile
    (filterOnVersion_loop sub (range_keys (repo.Entries indexFile)) (repo.Entries indexFile)).

(** ** filterCharts: the error of the name step is dropped ([_ = ...]). *)

Definition filterCharts (sub : appv1.Subscription) (indexFile : repo.IndexFile) : repo.IndexFile :=
  let '(indexFile1, _) := removeNoMatchingName sub indexFile in
  filterOnVersion sub indexFile1.

(** What one bucket becomes in [filterOnVersion]: its versions that pass
    the three checks, in their order, or nothing when none passes. *)
Definition keepBucket (sub : appv1.Subscription) (chartVersions : list repo.ChartVersion)
    : option (list repo.ChartVersion) :=
  let newChartVersions := List.filter (keepVersion sub) chartVersions in
  if decide (0 < length newChartVersions) then Some newChartVersions else None.

(** ** GenerateHelmIndexFile

    [chartDirs] is a map of which only the keys are read; the list
    [chartDirs] below is those keys in the order the [range] visits
    them.  An index expression out of range panics. *)

Fixpoint GenerateHelmIndexFile_loop (repoRoot : string) (chartDirs : list string)
    (indexFile : repo.IndexFile) : outcome (repo.IndexFile * option error) :=
  match chartDirs with
  | [] => Return (indexFile, None)
  | chartDir :: rest =>
      let chartFolderName := filepath_Base chartDir in
      match strings_Split chartDir chartFolderName !! 0%nat with
      | None => Panic
      | Some chartParentDir =>
          match strings_SplitAfter chartParentDir (repoRoot +:+ "/") !! 1%nat with
          | None => Panic
          | Some chartBaseDir =>
              match LoadChartfile (chartDir +:+ "Chart.yaml") with
              | inr err => Return (indexFile, Some err)
              | inl chartMetadata =>
                  GenerateHelmIndexFile_loop repoRoot rest
                    (IndexFile_Add indexFile chartMetadata chartFolderName chartBaseDir
                       "generated-by-multicloud-operators-subscription")
              end
          end
      end
  end.

Definition GenerateHelmIndexFile (sub : appv1.Subscription) (repoRoot : string)
    (chartDirs : list string) : outcome (repo.IndexFile * option error) :=
  match GenerateHelmIndexFile_loop repoRoot chartDirs repo.NewIndexFile with
  | Panic => Panic
  | Return (indexFile, Some err) => Return (indexFile, Some err)
  | Return (indexFile, None) => Return (filterCharts sub (SortEntries indexFile), None)
  end.

(** The range matcher as the design document words it: the first
    argument is parsed as a range, the second as an exact version; a
    parse failure is an error ([None]). *)
Definition VersionRangeMatcher (rangeExpr candidate : string) : option bool :=
  match semver_ParseRange rangeExpr, semver_Parse candidate with
  | Some range, Some version => Some (range version)
  | _, _ => None
  end.

(** A subscription that sets a package name and nothing else: no version
    range, no tillerVersion annotation, no label selector. *)
Definition onlyPackageName (sub : appv1.Subscription) : Prop :=
  appv1.Package (appv1.Spec sub) ≠ EmptyString ∧
  match appv1.PackageFilter (appv1.Spec sub) with
  | None => True
  | Some pf =>
      appv1.LabelSelector pf = None ∧ appv1.Version pf = EmptyString ∧
      match appv1.Annotations pf with
      | None => True
      | Some annotations => annotations !! "tillerVersion" = None
      end
  end.

(** The invariant of an index: no bucket is an empty list. *)
Definition nonEmptyBuckets (indexFile : repo.IndexFile) : Prop :=
  ∀ k l, repo.Entries indexFile !! k = Some l → l ≠ [].

(** The message of the error [removeNoMatchingName] builds. *)
Definition missingNameError (sub : appv1.Subscription) : error :=
  "subsciption.spec.name is missing for subscription: "
  +:+ appv1.Namespace sub +:+ "/" +:+ appv1.Name sub.

(** ** Facts about the loops *)

Lemma elem_of_range_keys {V : Type} (m : gmap string V) (k : string) :
  k ∈ range_keys m ↔ is_Some (m !! k).
Proof.
  unfold range_keys. rewrite list_elem_of_fmap. split.
  - intros [[k' v] [-> Hin]]. apply elem_of_map_to_list in Hin. by exists v.
  - intros [v Hv]. exists (k, v). split; [done|]. by apply elem_of_map_to_list.
Qed.

Lemma removeNoMatchingName_loop_lookup (package : string) (keys : list string)
    (entries : gmap string (list repo.ChartVersion)) (j : string) :
  removeNoMatchingName_loop package keys entries !! j =
    if decide (j ∈ keys ∧ j ≠ package) then None else entries !! j.
Proof.
  unfold removeNoMatchingName_loop. revert entries.
  induction keys as [|k keys IH]; intros entries.
  - rewrite decide_False; [done|]. intros [H _]. by apply elem_of_nil in H.
  - cbn [foldl]. rewrite IH.
    destruct (decide (j ∈ keys ∧ j ≠ package)) as [[Hin Hne]|Hn].
    { rewrite decide_True; [done|]. split; [by apply elem_of_cons; right|done]. }
    destruct (decide (k ≠ package)) as [Hk|Hk].
    + rewrite lookup_delete. destruct (decide (k = j)) as [->|Hkj].
      * rewrite decide_True; [done|]. split; [by apply elem_of_cons; left|done].
      * rewrite decide_False; [done|]. intros [Hin Hne].
        apply elem_of_cons in Hin as [->|Hin]; [done|]. by apply Hn.
    + apply dec_stable in Hk. subst k.
      rewrite decide_False; [done|]. intros [Hin Hne].
      apply elem_of_cons in Hin as [->|Hin]; [done|]. by apply Hn.
Qed.

(** The name step visits a snapshot of the keys; any order of any list
    with the same members gives the same map. *)
Lemma removeNoMatchingName_loop_order (package : string) (keys keys' : list string)
    (entries : gmap string (list repo.ChartVersion)) :
  (∀ k, k ∈ keys ↔ k ∈ keys') →
  removeNoMatchingName_loop package keys entries
  = removeNoMatchingName_loop package keys' entries.
Proof.
  intros Hk. apply map_eq. intros j. rewrite !removeNoMatchingName_loop_lookup.
  destruct (Hk j) as [Hk1 Hk2].
  destruct (decide (j ∈ keys ∧ j ≠ package)) as [[H1 H2]|H1];
    destruct (decide (j ∈ keys' ∧ j ≠ package)) as [[H3 H4]|H3]; try done.
  - exfalso. apply H3. auto.
  - exfalso. apply H1. auto.
Qed.

Lemma removeNoMatchingName_lookup (sub : appv1.Subscription) (indexFile : repo.IndexFile)
    (j : string) :
  appv1.Package (appv1.Spec sub) ≠ EmptyString →
  repo.Entries (removeNoMatchingName sub indexFile).1 !! j =
    if decide (j = appv1.Package (appv1.Spec sub)) then repo.Entries indexFile !! j else None.
Proof.
  intros Hp. unfold removeNoMatchingName. rewrite decide_True by done. simpl.
  rewrite removeNoMatchingName_loop_lookup.
  destruct (decide (j = appv1.Package (appv1.Spec sub))) as [->|Hj].
  - rewrite decide_False; [done|]. by intros [_ ?].
  - destruct (decide (j ∈ range_keys (repo.Entries indexFile) ∧
                      j ≠ appv1.Package (appv1.Spec sub))) as [H|H]; [done|].
    destruct (repo.Entries indexFile !! j) eqn:E; [|done].
    exfalso. apply H. split; [|done]. apply elem_of_range_keys. by rewrite E.
Qed.

Lemma filter_keepVersion_idemp (sub : appv1.Subscription) (l : list repo.ChartVersion) :
  List.filter (keepVersion sub) (List.filter (keepVersion sub) l)
  = List.filter (keepVersion sub) l.
Proof.
  induction l as [|cv l IH]; [done|]. simpl.
  destruct (keepVersion sub cv) eqn:E; [|done]. simpl. by rewrite E, IH.
Qed.

Lemma filter_keepVersion_sublist (sub : appv1.Subscription) (l : list repo.ChartVersion) :
  List.filter (keepVersion sub) l `sublist_of` l.
Proof.
  induction l as [|cv l IH]; [done|]. simpl.
  destruct (keepVersion sub cv); by constructor.
Qed.

Lemma filter_keepVersion_all (sub : appv1.Subscription) (l : list repo.ChartVersion) :
  (∀ cv, cv ∈ l → keepVersion sub cv = true) → List.filter (keepVersion sub) l = l.
Proof.
  induction l as [|cv l IH]; [done|]. intros H. simpl.
  rewrite H by (apply elem_of_cons; by left).
  f_equal. apply IH. intros cv' Hin. apply H. apply elem_of_cons. by right.
Qed.

Lemma keepBucket_Some (sub : appv1.Subscription) (l l' : list repo.ChartVersion) :
  keepBucket sub l = Some l' ↔ l' = List.filter (keepVersion sub) l ∧ l' ≠ [].
Proof.
  unfold keepBucket.
  destruct (decide (0 < length (List.filter (keepVersion sub) l))) as [H|H]; split.
  - intros [= <-]. split; [done|]. intros E. rewrite E in H. simpl in H. lia.
  - by intros [-> _].
  - done.
  - intros [-> Hne]. exfalso. destruct (List.filter (keepVersion sub) l); [done|].
    simpl in H. lia.
Qed.

Lemma keepBucket_idemp (sub : appv1.Subscription) (o : option (list repo.ChartVersion)) :
  (o ≫= keepBucket sub) ≫= keepBucket sub = o ≫= keepBucket sub.
Proof.
  destruct o as [l|]; [|done]. simpl.
  destruct (keepBucket sub l) as [l'|] eqn:E; [|done]. simpl.
  apply keepBucket_Some in E as [-> Hne]. apply keepBucket_Some.
  by rewrite filter_keepVersion_idemp.
Qed.

Lemma filterOnVersion_step_lookup (sub : appv1.Subscription)
    (entries : gmap string (list repo.ChartVersion)) (k j : string) :
  filterOnVersion_step sub entries k !! j =
    if decide (j = k) then entries !! j ≫= keepBucket sub else entries !! j.
Proof.
  unfold filterOnVersion_step. destruct (decide (j = k)) as [->|Hj].
  - destruct (entries !! k) as [l|] eqn:E.
    + change (default [] (Some l)) with l. change (Some l ≫= keepBucket sub) with (keepBucket sub l).
      unfold keepBucket. case_decide.
      * by rewrite lookup_insert_eq.
      * by rewrite lookup_delete_eq.
    + change (default [] None) with (@nil repo.ChartVersion).
      rewrite decide_False by (cbn; lia). by rewrite lookup_delete_eq.
  - case_decide.
    + by rewrite lookup_insert_ne.
    + by rewrite lookup_delete_ne.
Qed.

Lemma filterOnVersion_loop_lookup (sub : appv1.Subscription) (keys : list string)
    (entries : gmap string (list repo.ChartVersion)) (j : string) :
  filterOnVersion_loop sub keys entries !! j =
    if decide (j ∈ keys) then entries !! j ≫= keepBucket sub else entries !! j.
Proof.
  unfold filterOnVersion_loop. revert entries.
  induction keys as [|k keys IH]; intros entries.
  - rewrite decide_False; [done|]. apply not_elem_of_nil.
  - cbn [foldl]. rewrite IH, filterOnVersion_step_lookup.
    destruct (decide (j = k)) as [->|Hj].
    + rewrite (decide_True (P := k ∈ k :: keys)) by (apply elem_of_cons; by left).
      case_decide; [apply keepBucket_idemp|done].
    + destruct (decide (j ∈ keys)) as [Hin|Hin].
      * rewrite decide_True by (apply elem_of_cons; by right). done.
      * rewrite decide_False by (by intros [?|?]%elem_of_cons). done.
Qed.

(** The version step too gives the same map for every order of the
    snapshot. *)
Lemma filterOnVersion_loop_order (sub : appv1.Subscription) (keys keys' : list string)
    (entries : gmap string (list repo.ChartVersion)) :
  (∀ k, k ∈ keys ↔ k ∈ keys') →
  filterOnVersion_loop sub keys entries = filterOnVersion_loop sub keys' entries.
Proof.
  intros Hk. apply map_eq. intros j. rewrite !filterOnVersion_loop_lookup.
  destruct (Hk j) as [Hk1 Hk2].
  destruct (decide (j ∈ keys)) as [H1|H1]; destruct (decide (j ∈ keys')) as [H3|H3];
    try done.
  - exfalso. auto.
  - exfalso. auto.
Qed.

Lemma filterOnVersion_lookup (sub : appv1.Subscription) (indexFile : repo.IndexFile)
    (j : string) :
  repo.Entries (filterOnVersion sub indexFile) !! j
  = repo.Entries indexFile !! j ≫= keepBucket sub.
Proof.
  unfold filterOnVersion. simpl. rewrite filterOnVersion_loop_lookup.
  destruct (decide (j ∈ range_keys (repo.Entries indexFile))) as [H|H]; [done|].
  destruct (repo.Entries indexFile !! j) eqn:E; [|done].
  exfalso. apply H. apply elem_of_range_keys. by rewrite E.
Qed.

(** X2.  Whatever order the runtime hands the keys of the snapshot out in,
    the deletions of removeNoMatchingName end in the same map. *)
Lemma removeNoMatchingName_any_order (sub : appv1.Subscription) (indexFile : repo.IndexFile)
    (keys : list string) :
  keys ≡ₚ range_keys (repo.Entries indexFile) →
  appv1.Package (appv1.Spec sub) ≠ EmptyString →
  removeNoMatchingName_loop (appv1.Package (appv1.Spec sub)) keys (repo.Entries indexFile)
  = repo.Entries (removeNoMatchingName sub indexFile).1.
Proof.
  intros Hperm Hp. unfold removeNoMatchingName. rewrite decide_True by done. simpl.
  apply removeNoMatchingName_loop_order. intros k. by rewrite Hperm.
Qed.

(** X3.  Whatever order the runtime hands the keys of the snapshot out in,
    the bucket updates of filterOnVersion end in the same map. *)
Lemma filterOnVersion_any_order (sub : appv1.Subscription) (indexFile : repo.IndexFile)
    (keys : list string) :
  keys ≡ₚ range_keys (repo.Entries indexFile) →
  filterOnVersion_loop sub keys (repo.Entries indexFile)
  = repo.Entries (filterOnVersion sub indexFile).
Proof.
  intros Hperm. unfold filterOnVersion. simpl.
  apply filterOnVersion_loop_order. intros k. by rewrite Hperm.
Qed.

Lemma filterCharts_lookup (sub : appv1.Subscription) (indexFile : repo.IndexFile)
    (j : string) :
  repo.Entries (filterCharts sub indexFile) !! j =
    if decide (appv1.Package (appv1.Spec sub) = EmptyString
               ∨ j = appv1.Package (appv1.Spec sub))
    then repo.Entries indexFile !! j ≫= keepBucket sub else None.
Proof.
  unfold filterCharts.
  destruct (removeNoMatchingName sub indexFile) as [indexFile1 e] eqn:E.
  rewrite filterOnVersion_lookup.
  destruct (decide (appv1.Package (appv1.Spec sub) = EmptyString)) as [Hp|Hp].
  - rewrite decide_True by (by left).
    unfold removeNoMatchingName in E. rewrite decide_False in E by (by intros ?).
    by injection E as <- _.
  - change indexFile1 with (indexFile1, e).1. rewrite <- E.
    rewrite removeNoMatchingName_lookup by done.
    destruct (decide (j = appv1.Package (appv1.Spec sub))).
    + by rewrite decide_True by (by right).
    + by rewrite decide_False by (by intros [?|?]).
Qed.

Lemma filterCharts_APIVersion (sub : appv1.Subscription) (indexFile : repo.IndexFile) :
  repo.APIVersion (filterCharts sub indexFile) = repo.APIVersion indexFile.
Proof.
  unfold filterCharts, removeNoMatchingName. by case_decide.
Qed.

Lemma IndexFile_eq (i1 i2 : repo.IndexFile) :
  repo.APIVersion i1 = repo.APIVersion i2 →
  (∀ j, repo.Entries i1 !! j = repo.Entries i2 !! j) → i1 = i2.
Proof.
  destruct i1, i2. simpl. intros -> H. f_equal. by apply map_eq.
Qed.

Lemma elem_of_filter_keepVersion (sub : appv1.Subscription) (l : list repo.ChartVersion)
    (cv : repo.ChartVersion) :
  cv ∈ List.filter (keepVersion sub) l ↔ cv ∈ l ∧ keepVersion sub cv = true.
Proof. rewrite !list_elem_of_In. apply filter_In. Qed.

Lemma GenerateHelmIndexFile_loop_app (repoRoot : string) (pre rest : list string)
    (indexFile built : repo.IndexFile) :
  GenerateHelmIndexFile_loop repoRoot pre indexFile = Return (built, None) →
  GenerateHelmIndexFile_loop repoRoot (pre ++ rest)%list indexFile
  = GenerateHelmIndexFile_loop repoRoot rest built.
Proof.
  revert indexFile. induction pre as [|d pre IH]; intros indexFile; simpl.
  - by intros [= ->].
  - destruct (strings_Split d (filepath_Base d) !! 0%nat) as [parent|]; [|done].
    destruct (strings_SplitAfter parent (repoRoot +:+ "/") !! 1%nat) as [base|]; [|done].
    destruct (LoadChartfile (d +:+ "Chart.yaml")) as [md|e]; [|done].
    apply IH.
Qed.

(** ** The claims *)

(** C1, as amended.  When sub.Spec.Package is empty, removeNoMatchingName
    returns its error, but filterCharts drops it and goes on to run
    filterOnVersion on the whole, untouched index; GenerateHelmIndexFile
    then returns that filtered index with a nil error whenever every
    manifest loaded. *)
Theorem filterCharts_missing_name (sub : appv1.Subscription) (indexFile : repo.IndexFile) :
  appv1.Package (appv1.Spec sub) = EmptyString →
  (removeNoMatchingName sub indexFile).2 = Some (missingNameError sub) ∧
  filterCharts sub indexFile = filterOnVersion sub indexFile ∧
  ∀ repoRoot chartDirs built,
    GenerateHelmIndexFile_loop repoRoot chartDirs repo.NewIndexFile = Return (built, None) →
    GenerateHelmIndexFile sub repoRoot chartDirs
    = Return (filterOnVersion sub (SortEntries built), None).
Proof.
  intros Hp. assert (Hr : removeNoMatchingName sub indexFile = (indexFile, Some (missingNameError sub))).
  { unfold removeNoMatchingName. rewrite decide_False; [done|]. by intros ?. }
  split; [by rewrite Hr|]. split.
  - unfold filterCharts. by rewrite Hr.
  - intros repoRoot chartDirs built Hb. unfold GenerateHelmIndexFile. rewrite Hb.
    unfold filterCharts, removeNoMatchingName. rewrite decide_False; [done|]. by intros ?.
Qed.

(** C2, as amended.  A chart version whose tillerVersion is empty passes
    checkTillerVersion, whatever the subscription asks for: also when the
    tillerVersion annotation is set, the check returns true. *)
Theorem checkTillerVersion_no_tiller (sub : appv1.Subscription) (chartVersion : repo.ChartVersion) :
  repo.GetTillerVersion chartVersion = EmptyString →
  checkTillerVersion sub chartVersion = true.
Proof.
  intros Ht. unfold checkTillerVersion.
  destruct (appv1.PackageFilter (appv1.Spec sub)) as [pf|]; [|done].
  destruct (appv1.Annotations pf) as [annotations|]; [|done].
  destruct (annotations !! "tillerVersion"); [|done].
  rewrite decide_False; [done|]. by intros ?.
Qed.

(** C3, as amended.  When the tillerVersion annotation is set and the
    chart version has a tillerVersion, it is the chart's tillerVersion that
    is parsed as the range and the subscription's annotation that is parsed
    as the exact version: the check succeeds iff the range matcher accepts
    (chart tillerVersion, annotation), range first, candidate second. *)
Theorem checkTillerVersion_range_of_chart (sub : appv1.Subscription)
    (chartVersion : repo.ChartVersion) (pf : appv1.PackageFilterT)
    (annotations : gmap string string) (filterTillerVersion : string) :
  appv1.PackageFilter (appv1.Spec sub) = Some pf →
  appv1.Annotations pf = Some annotations →
  annotations !! "tillerVersion" = Some filterTillerVersion →
  repo.GetTillerVersion chartVersion ≠ EmptyString →
  checkTillerVersion sub chartVersion = true ↔
  VersionRangeMatcher (repo.GetTillerVersion chartVersion) filterTillerVersion = Some true.
Proof.
  intros Hpf Ha Hf Ht. unfold checkTillerVersion, VersionRangeMatcher.
  rewrite Hpf, Ha, Hf, decide_True by done.
  destruct (semver_ParseRange (repo.GetTillerVersion chartVersion)) as [r|]; [|done].
  destruct (semver_Parse filterTillerVersion) as [v|]; [|done].
  split; [by intros ->|by intros [= ->]].
Qed.

(** C4.  With a non-empty package name, every bucket of the index that
    filterCharts leaves is non-empty, sits under a key of the input index,
    and its versions are a subsequence of that key's original versions
    (those that pass the three checks); and a bucket whose versions all
    fail the checks is gone from the map, not left as an empty list. *)
Theorem filterCharts_subset (sub : appv1.Subscription) (indexFile : repo.IndexFile) :
  appv1.Package (appv1.Spec sub) ≠ EmptyString →
  (∀ k l', repo.Entries (filterCharts sub indexFile) !! k = Some l' →
     l' ≠ [] ∧
     ∃ l, repo.Entries indexFile !! k = Some l ∧ l' `sublist_of` l ∧
          l' = List.filter (keepVersion sub) l) ∧
  (∀ k l, repo.Entries indexFile !! k = Some l →
     (∀ chartVersion, chartVersion ∈ l → keepVersion sub chartVersion = false) →
     repo.Entries (filterCharts sub indexFile) !! k = None).
Proof.
  intros Hp. split.
  - intros k l'. rewrite filterCharts_lookup. case_decide; [|done].
    destruct (repo.Entries indexFile !! k) as [l|]; [|done]. simpl.
    intros [-> Hne]%keepBucket_Some. split; [done|].
    exists l. split; [done|]. split; [apply filter_keepVersion_sublist|done].
  - intros k l Hl Hfail. rewrite filterCharts_lookup. case_decide; [|done].
    rewrite Hl. simpl.
    destruct (keepBucket sub l) as [l'|] eqn:E; [|done].
    apply keepBucket_Some in E as [-> Hne].
    destruct (List.filter (keepVersion sub) l) as [|cv rest] eqn:Ef; [done|].
    assert (Hin : cv ∈ List.filter (keepVersion sub) l)
      by (rewrite Ef; apply elem_of_cons; by left).
    apply elem_of_filter_keepVersion in Hin as [Hin Hkeep].
    rewrite (Hfail cv Hin) in Hkeep. done.
Qed.

(** C5.  For a subscription that sets only a non-empty package name, and
    an index whose buckets are non-empty, filterCharts leaves exactly the
    bucket keyed by that name, with all its versions in their order, and
    no other bucket (so the empty index when no bucket has that key).
    [KeywordsChecker] accepts every chart when there is no selector. *)
Theorem filterCharts_only_name (sub : appv1.Subscription) (indexFile : repo.IndexFile)
    (k : string) :
  (∀ keywords, KeywordsChecker None keywords = true) →
  onlyPackageName sub →
  nonEmptyBuckets indexFile →
  repo.Entries (filterCharts sub indexFile) !! k =
    if decide (k = appv1.Package (appv1.Spec sub)) then repo.Entries indexFile !! k else None.
Proof.
  intros HK [Hp Hpf] Hne. rewrite filterCharts_lookup.
  destruct (decide (k = appv1.Package (appv1.Spec sub))) as [Hk|Hk].
  - rewrite decide_True by (by right).
    destruct (repo.Entries indexFile !! k) as [l|] eqn:E; [|done]. simpl.
    apply keepBucket_Some. split; [|by eapply Hne].
    symmetry. apply filter_keepVersion_all. intros cv _.
    unfold keepVersion, checkKeywords, checkTillerVersion, checkVersion.
    destruct (appv1.PackageFilter (appv1.Spec sub)) as [pf|]; [|by rewrite HK].
    destruct Hpf as (-> & -> & Ha). rewrite HK. simpl.
    destruct (appv1.Annotations pf) as [annotations|]; [|done]. by rewrite Ha.
  - rewrite decide_False; [done|]. by intros [?|?].
Qed.

(** C6.  filterCharts is idempotent: with a non-empty package name,
    filtering an already filtered index with the same subscription changes
    nothing. *)
Theorem filterCharts_idempotent (sub : appv1.Subscription) (indexFile : repo.IndexFile) :
  appv1.Package (appv1.Spec sub) ≠ EmptyString →
  filterCharts sub (filterCharts sub indexFile) = filterCharts sub indexFile.
Proof.
  intros Hp. apply IndexFile_eq.
  - by rewrite !filterCharts_APIVersion.
  - intros j. rewrite !filterCharts_lookup. case_decide; [|done].
    apply keepBucket_idemp.
Qed.

(** C7.  A chart version whose version string does not parse is refused by
    checkVersion when the subscription has a version filter, and is then
    in no bucket of the index filterOnVersion or filterCharts leaves; it is
    accepted by checkVersion when there is no version filter, and then
    stays in its bucket if it passes the other two checks.  Either way
    filterOnVersion completes, and every version of the index that passes
    its own checks is still in its bucket afterwards. *)
Theorem checkVersion_malformed (sub : appv1.Subscription) (chartVersion : repo.ChartVersion) :
  semver_Parse (repo.GetVersion chartVersion) = None →
  (∀ pf, appv1.PackageFilter (appv1.Spec sub) = Some pf →
         appv1.Version pf ≠ EmptyString →
         checkVersion sub chartVersion = false ∧
         ∀ indexFile k l',
           (repo.Entries (filterOnVersion sub indexFile) !! k = Some l' →
            chartVersion ∉ l') ∧
           (repo.Entries (filterCharts sub indexFile) !! k = Some l' →
            chartVersion ∉ l')) ∧
  ((appv1.PackageFilter (appv1.Spec sub) = None ∨
    ∃ pf, appv1.PackageFilter (appv1.Spec sub) = Some pf ∧ appv1.Version pf = EmptyString) →
   checkVersion sub chartVersion = true ∧
   ∀ indexFile k l, repo.Entries indexFile !! k = Some l → chartVersion ∈ l →
     checkKeywords sub chartVersion = true →
     checkTillerVersion sub chartVersion = true →
     ∃ l', repo.Entries (filterOnVersion sub indexFile) !! k = Some l' ∧
           chartVersion ∈ l') ∧
  (∀ indexFile k l, repo.Entries indexFile !! k = Some l → chartVersion ∈ l →
     ∀ j lj other, repo.Entries indexFile !! j = Some lj → other ∈ lj →
       keepVersion sub other = true →
       repo.Entries (filterOnVersion sub indexFile) !! j
         = Some (List.filter (keepVersion sub) lj)
       ∧ other ∈ List.filter (keepVersion sub) lj).
Proof.
  intros Hparse.
  assert (Hpass : ∀ indexFile j lj other, repo.Entries indexFile !! j = Some lj →
            other ∈ lj → keepVersion sub other = true →
            repo.Entries (filterOnVersion sub indexFile) !! j
              = Some (List.filter (keepVersion sub) lj)
            ∧ other ∈ List.filter (keepVersion sub) lj).
  { intros indexFile j lj other Hj Hin Hkeep.
    assert (Hin' : other ∈ List.filter (keepVersion sub) lj)
      by (by apply elem_of_filter_keepVersion).
    split; [|done]. rewrite filterOnVersion_lookup, Hj. simpl.
    apply keepBucket_Some. split; [done|]. intros E. rewrite E in Hin'.
    by apply elem_of_nil in Hin'. }
  split; [|split].
  - intros pf Hpf Hv.
    assert (Hcv : checkVersion sub chartVersion = false)
      by (unfold checkVersion; by rewrite Hpf, decide_True, Hparse).
    assert (Hkeep : keepVersion sub chartVersion = false)
      by (unfold keepVersion; rewrite Hcv; apply andb_false_r).
    split; [done|]. intros indexFile k l'. split.
    + rewrite filterOnVersion_lookup.
      destruct (repo.Entries indexFile !! k) as [l|]; [|done]. simpl.
      intros [-> _]%keepBucket_Some [_ H]%elem_of_filter_keepVersion.
      by rewrite Hkeep in H.
    + rewrite filterCharts_lookup. case_decide; [|done].
      destruct (repo.Entries indexFile !! k) as [l|]; [|done]. simpl.
      intros [-> _]%keepBucket_Some [_ Hk']%elem_of_filter_keepVersion.
      by rewrite Hkeep in Hk'.
  - intros Hunset.
    assert (Hcv : checkVersion sub chartVersion = true).
    { destruct Hunset as [Hpf|(pf & Hpf & Hv)]; unfold checkVersion; rewrite Hpf; [done|].
      rewrite decide_False; [done|]. by intros ?. }
    split; [done|]. intros indexFile k l Hl Hin H1 H2.
    exists (List.filter (keepVersion sub) l).
    apply (Hpass indexFile k l chartVersion Hl Hin).
    unfold keepVersion. by rewrite H1, H2, Hcv.
  - intros indexFile k l _ _. apply Hpass.
Qed.

(** C8.  When the manifest of a location fails to load, after the
    locations before it were added, GenerateHelmIndexFile returns the load
    error with the index as built so far: whatever locations follow are not
    looked at, and neither SortEntries nor filterCharts is applied. *)
Theorem GenerateHelmIndexFile_load_failure (sub : appv1.Subscription) (repoRoot : string)
    (pre post : list string) (chartDir chartParentDir chartBaseDir : string)
    (built : repo.IndexFile) (err : error) :
  GenerateHelmIndexFile_loop repoRoot pre repo.NewIndexFile = Return (built, None) →
  strings_Split chartDir (filepath_Base chartDir) !! 0%nat = Some chartParentDir →
  strings_SplitAfter chartParentDir (repoRoot +:+ "/") !! 1%nat = Some chartBaseDir →
  LoadChartfile (chartDir +:+ "Chart.yaml") = inr err →
  GenerateHelmIndexFile sub repoRoot (pre ++ chartDir :: post)%list = Return (built, Some err).
Proof.
  intros Hpre Hparent Hbase Hload. unfold GenerateHelmIndexFile.
  rewrite (GenerateHelmIndexFile_loop_app _ _ _ _ _ Hpre). simpl.
  by rewrite Hparent, Hbase, Hload.
Qed.

(** C9.  With an empty sub.Spec.Package, removeNoMatchingName returns a
    non-nil error and the index exactly as it was: no bucket is deleted. *)
Theorem removeNoMatchingName_missing_name (sub : appv1.Subscription) (indexFile : repo.IndexFile) :
  appv1.Package (appv1.Spec sub) = EmptyString →
  removeNoMatchingName sub indexFile = (indexFile, Some (missingNameError sub)).
Proof.
  intros Hp. unfold removeNoMatchingName. rewrite decide_False; [done|]. by intros ?.
Qed.

(** C10.  GetPackageAlias returns the alias of the first override whose
    PackageName is the given name and whose PackageAlias is not empty, and
    the empty string when there is none; an override that names the package
    with an empty alias is passed over. *)
Theorem GetPackageAlias_first_match (sub : appv1.Subscription) (packageName : string) :
  GetPackageAlias sub packageName = GetPackageAlias_spec sub packageName.
Proof.
  unfold GetPackageAlias, GetPackageAlias_spec.
  induction (appv1.PackageOverrides (appv1.Spec sub)) as [|o rest IH]; [done|].
  simpl. destruct (decide (appv1.PackageName o = packageName)) as [Hn|Hn].
  - destruct (decide (appv1.PackageAlias o ≠ EmptyString)) as [Ha|Ha].
    + by rewrite bool_decide_eq_true_2.
    + rewrite bool_decide_eq_false_2; [done|]. by intros [_ ?].
  - rewrite bool_decide_eq_false_2; [done|]. by intros [? _].
Qed.

(** ** Further properties of the helpers *)

(** X1.  With a non-empty sub.Spec.Package, removeNoMatchingName returns a
    nil error and leaves the bucket keyed by that name, exactly as it was,
    and no other bucket. *)
Theorem removeNoMatchingName_named (sub : appv1.Subscription) (indexFile : repo.IndexFile) :
  appv1.Package (appv1.Spec sub) ≠ EmptyString →
  (removeNoMatchingName sub indexFile).2 = None ∧
  ∀ k, repo.Entries (removeNoMatchingName sub indexFile).1 !! k =
         if decide (k = appv1.Package (appv1.Spec sub))
         then repo.Entries indexFile !! k else None.
Proof.
  intros Hp. split.
  - unfold removeNoMatchingName. by rewrite decide_True.
  - intros k. by apply removeNoMatchingName_lookup.
Qed.

(** X4.  filterOnVersion leaves a bucket under a key exactly when the input
    has a bucket there with at least one version passing the three checks,
    and the bucket left is those passing versions in their order. *)
Theorem filterOnVersion_spec (sub : appv1.Subscription) (indexFile : repo.IndexFile)
    (k : string) (l' : list repo.ChartVersion) :
  repo.Entries (filterOnVersion sub indexFile) !! k = Some l' ↔
  ∃ l, repo.Entries indexFile !! k = Some l ∧
       l' = List.filter (keepVersion sub) l ∧ l' ≠ [].
Proof.
  rewrite filterOnVersion_lookup. split.
  - destruct (repo.Entries indexFile !! k) as [l|]; [|done]. simpl.
    intros H%keepBucket_Some. by exists l.
  - intros (l & -> & H). simpl. by apply keepBucket_Some.
Qed.

(** X5.  Every chart version filterCharts leaves passes checkKeywords,
    checkTillerVersion and checkVersion, was in the input bucket of the
    same key, and, when a package name is set, sits under that name. *)
Theorem filterCharts_sound (sub : appv1.Subscription) (indexFile : repo.IndexFile)
    (k : string) (l' : list repo.ChartVersion) (chartVersion : repo.ChartVersion) :
  repo.Entries (filterCharts sub indexFile) !! k = Some l' →
  chartVersion ∈ l' →
  checkKeywords sub chartVersion = true ∧
  checkTillerVersion sub chartVersion = true ∧
  checkVersion sub chartVersion = true ∧
  (appv1.Package (appv1.Spec sub) ≠ EmptyString → k = appv1.Package (appv1.Spec sub)) ∧
  ∃ l, repo.Entries indexFile !! k = Some l ∧ chartVersion ∈ l.
Proof.
  rewrite filterCharts_lookup.
  destruct (decide (appv1.Package (appv1.Spec sub) = EmptyString
                    ∨ k = appv1.Package (appv1.Spec sub))) as [Hk|Hk]; [|done].
  destruct (repo.Entries indexFile !! k) as [l|]; [|done]. simpl.
  intros [-> _]%keepBucket_Some [Hin Hkeep]%elem_of_filter_keepVersion.
  unfold keepVersion in Hkeep. apply andb_true_iff in Hkeep as [Hkeep H3].
  apply andb_true_iff in Hkeep as [H1 H2].
  repeat split; try done.
  - intros Hp. by destruct Hk.
  - by exists l.
Qed.

(** X6.  A chart version that passes the three checks survives
    filterCharts under its key, provided the key is the package name of
    the subscription or the subscription names no package. *)
Theorem filterCharts_complete (sub : appv1.Subscription) (indexFile : repo.IndexFile)
    (k : string) (l : list repo.ChartVersion) (chartVersion : repo.ChartVersion) :
  repo.Entries indexFile !! k = Some l →
  chartVersion ∈ l →
  appv1.Package (appv1.Spec sub) = EmptyString ∨ k = appv1.Package (appv1.Spec sub) →
  checkKeywords sub chartVersion = true →
  checkTillerVersion sub chartVersion = true →
  checkVersion sub chartVersion = true →
  ∃ l', repo.Entries (filterCharts sub indexFile) !! k = Some l' ∧ chartVersion ∈ l'.
Proof.
  intros Hl Hin Hk H1 H2 H3.
  assert (Hin' : chartVersion ∈ List.filter (keepVersion sub) l).
  { apply elem_of_filter_keepVersion. split; [done|].
    unfold keepVersion. by rewrite H1, H2, H3. }
  exists (List.filter (keepVersion sub) l). split; [|done].
  rewrite filterCharts_lookup, decide_True, Hl by done. simpl.
  apply keepBucket_Some. split; [done|]. intros E. rewrite E in Hin'.
  by apply elem_of_nil in Hin'.
Qed.

(** X7.  With a non-empty package name, filterCharts leaves at most one
    bucket. *)
Theorem filterCharts_at_most_one_bucket (sub : appv1.Subscription) (indexFile : repo.IndexFile) :
  appv1.Package (appv1.Spec sub) ≠ EmptyString →
  (size (repo.Entries (filterCharts sub indexFile)) ≤ 1)%nat.
Proof.
  intros Hp.
  destruct (repo.Entries (filterCharts sub indexFile) !! appv1.Package (appv1.Spec sub))
    as [x|] eqn:E.
  - assert (repo.Entries (filterCharts sub indexFile)
            = {[ appv1.Package (appv1.Spec sub) := x ]}) as ->; [|by rewrite map_size_singleton].
    apply map_eq. intros j.
    destruct (decide (j = appv1.Package (appv1.Spec sub))) as [->|Hj].
    + by rewrite E, lookup_singleton_eq.
    + rewrite lookup_singleton_ne by done. rewrite filterCharts_lookup.
      rewrite decide_False; [done|]. by intros [?|?].
  - assert (repo.Entries (filterCharts sub indexFile) = ∅) as ->;
      [|rewrite map_size_empty; lia].
    apply map_empty. intros j.
    destruct (decide (j = appv1.Package (appv1.Spec sub))) as [->|Hj]; [done|].
    rewrite filterCharts_lookup. rewrite decide_False; [done|]. by intros [?|?].
Qed.

(** X8.  When the index has no bucket under the subscription's non-empty
    package name, filterCharts leaves the index without any bucket. *)
Theorem filterCharts_missing_bucket (sub : appv1.Subscription) (indexFile : repo.IndexFile) :
  appv1.Package (appv1.Spec sub) ≠ EmptyString →
  repo.Entries indexFile !! appv1.Package (appv1.Spec sub) = None →
  repo.Entries (filterCharts sub indexFile) = ∅.
Proof.
  intros Hp Hnone. apply map_empty. intros j. rewrite filterCharts_lookup.
  destruct (decide (j = appv1.Package (appv1.Spec sub))) as [->|Hj].
  - rewrite decide_True by (by right). by rewrite Hnone.
  - rewrite decide_False; [done|]. by intros [?|?].
Qed.

(** X9.  When the subscription sets a version, checkVersion parses that
    version as the range and the chart's version as the exact candidate:
    it succeeds iff both parse and the chart's version is in the range. *)
Theorem checkVersion_range_of_subscription (sub : appv1.Subscription)
    (chartVersion : repo.ChartVersion) (pf : appv1.PackageFilterT) :
  appv1.PackageFilter (appv1.Spec sub) = Some pf →
  appv1.Version pf ≠ EmptyString →
  checkVersion sub chartVersion = true ↔
  VersionRangeMatcher (appv1.Version pf) (repo.GetVersion chartVersion) = Some true.
Proof.
  intros Hpf Hv. unfold checkVersion, VersionRangeMatcher.
  rewrite Hpf, decide_True by done.
  destruct (semver_Parse (repo.GetVersion chartVersion)) as [v|];
    destruct (semver_ParseRange (appv1.Version pf)) as [r|]; try done.
  split; [by intros ->|by intros [= ->]].
Qed.

(** X10.  When the version the subscription sets does not parse as a
    range, no chart version passes, and filterCharts leaves the index
    without any bucket, whatever the index held. *)
Theorem filterCharts_unparsable_range (sub : appv1.Subscription) (indexFile : repo.IndexFile)
    (pf : appv1.PackageFilterT) :
  appv1.PackageFilter (appv1.Spec sub) = Some pf →
  appv1.Version pf ≠ EmptyString →
  semver_ParseRange (appv1.Version pf) = None →
  repo.Entries (filterCharts sub indexFile) = ∅.
Proof.
  intros Hpf Hv Hr.
  assert (Hnone : ∀ l, keepBucket sub l = None).
  { intros l. destruct (keepBucket sub l) as [l'|] eqn:E; [|done].
    apply keepBucket_Some in E as [-> Hne]. exfalso. apply Hne.
    clear Hne. induction l as [|cv l IH]; [done|]. simpl.
    assert (keepVersion sub cv = false) as ->; [|done].
    unfold keepVersion, checkVersion. rewrite Hpf, decide_True, Hr by done.
    destruct (semver_Parse (repo.GetVersion cv)); apply andb_false_r. }
  apply map_empty. intros j. rewrite filterCharts_lookup.
  case_decide; [|done].
  destruct (repo.Entries indexFile !! j); [apply Hnone|done].
Qed.

(** X11.  checkTillerVersion refuses a chart version only when the
    tillerVersion annotation is set, the chart names a tillerVersion, and
    the range matcher does not accept (chart tillerVersion, annotation):
    a parse failure on either side counts as not accepted. *)
Theorem checkTillerVersion_false_iff (sub : appv1.Subscription) (chartVersion : repo.ChartVersion) :
  checkTillerVersion sub chartVersion = false ↔
  ∃ pf annotations filterTillerVersion,
    appv1.PackageFilter (appv1.Spec sub) = Some pf ∧
    appv1.Annotations pf = Some annotations ∧
    annotations !! "tillerVersion" = Some filterTillerVersion ∧
    repo.GetTillerVersion chartVersion ≠ EmptyString ∧
    VersionRangeMatcher (repo.GetTillerVersion chartVersion) filterTillerVersion ≠ Some true.
Proof.
  unfold checkTillerVersion, VersionRangeMatcher. split.
  - destruct (appv1.PackageFilter (appv1.Spec sub)) as [pf|]; [|done].
    destruct (appv1.Annotations pf) as [annotations|] eqn:Ha; [|done].
    destruct (annotations !! "tillerVersion") as [f|] eqn:Hf; [|done].
    destruct (decide (repo.GetTillerVersion chartVersion ≠ EmptyString)) as [Ht|Ht]; [|done].
    intros H. exists pf, annotations, f. repeat split; try done.
    destruct (semver_ParseRange (repo.GetTillerVersion chartVersion)) as [r|]; [|done].
    destruct (semver_Parse f) as [v|]; [|done]. rewrite H. by intros [=].
  - intros (pf & annotations & f & -> & -> & -> & Ht & Hm).
    rewrite decide_True by done.
    destruct (semver_ParseRange (repo.GetTillerVersion chartVersion)) as [r|]; [|done].
    destruct (semver_Parse f) as [v|]; [|done].
    destruct (r v); [|done]. by exfalso.
Qed.

(** X12.  The two steps of filterCharts commute: deleting the buckets of
    other names and then filtering the versions gives the index that
    filtering the versions and then deleting the buckets of other names
    gives. *)
Theorem removeNoMatchingName_filterOnVersion_commute (sub : appv1.Subscription)
    (indexFile : repo.IndexFile) :
  filterOnVersion sub (removeNoMatchingName sub indexFile).1
  = (removeNoMatchingName sub (filterOnVersion sub indexFile)).1.
Proof.
  destruct (decide (appv1.Package (appv1.Spec sub) = EmptyString)) as [Hp|Hp].
  - unfold removeNoMatchingName. rewrite !decide_False; [done| |]; by intros ?.
  - apply IndexFile_eq.
    + unfold removeNoMatchingName, filterOnVersion. by rewrite !decide_True.
    + intros j. rewrite filterOnVersion_lookup, !removeNoMatchingName_lookup by done.
      rewrite filterOnVersion_lookup. by case_decide.
Qed.

Lemma GenerateHelmIndexFile_loop_cons (repoRoot chartDir chartParentDir chartBaseDir : string)
    (rest : list string) (indexFile : repo.IndexFile) (chartMetadata : chart.Metadata) :
  strings_Split chartDir (filepath_Base chartDir) !! 0%nat = Some chartParentDir →
  strings_SplitAfter chartParentDir (repoRoot +:+ "/") !! 1%nat = Some chartBaseDir →
  LoadChartfile (chartDir +:+ "Chart.yaml") = inl chartMetadata →
  GenerateHelmIndexFile_loop repoRoot (chartDir :: rest) indexFile
  = GenerateHelmIndexFile_loop repoRoot rest
      (IndexFile_Add indexFile chartMetadata (filepath_Base chartDir) chartBaseDir
         "generated-by-multicloud-operators-subscription").
Proof. intros H1 H2 H3. simpl. by rewrite H1, H2, H3. Qed.

Lemma GenerateHelmIndexFile_loop_error (repoRoot : string) (chartDirs : list string)
    (indexFile indexFile' : repo.IndexFile) (err : error) :
  GenerateHelmIndexFile_loop repoRoot chartDirs indexFile = Return (indexFile', Some err) →
  ∃ pre chartDir post,
    chartDirs = (pre ++ chartDir :: post)%list ∧
    LoadChartfile (chartDir +:+ "Chart.yaml") = inr err ∧
    GenerateHelmIndexFile_loop repoRoot pre indexFile = Return (indexFile', None).
Proof.
  revert indexFile. induction chartDirs as [|d rest IH]; intros indexFile; [done|].
  destruct (strings_Split d (filepath_Base d) !! 0%nat) as [parent|] eqn:H1;
    [|simpl; by rewrite H1].
  destruct (strings_SplitAfter parent (repoRoot +:+ "/") !! 1%nat) as [base|] eqn:H2;
    [|simpl; by rewrite H1, H2].
  destruct (LoadChartfile (d +:+ "Chart.yaml")) as [md|e] eqn:H3.
  - rewrite (GenerateHelmIndexFile_loop_cons _ _ _ _ _ _ _ H1 H2 H3).
    intros (pre & chartDir & post & -> & Hload & Hpre)%IH.
    exists (d :: pre), chartDir, post. split; [done|]. split; [done|].
    by rewrite (GenerateHelmIndexFile_loop_cons _ _ _ _ _ _ _ H1 H2 H3).
  - simpl. rewrite H1, H2, H3. intros [= <- <-].
    by exists [], d, rest.
Qed.

Lemma GenerateHelmIndexFile_loop_returns (repoRoot : string) (chartDirs : list string)
    (indexFile : repo.IndexFile) :
  (∀ chartDir, chartDir ∈ chartDirs →
     ∃ chartParentDir,
       strings_Split chartDir (filepath_Base chartDir) !! 0%nat = Some chartParentDir ∧
       is_Some (strings_SplitAfter chartParentDir (repoRoot +:+ "/") !! 1%nat)) →
  ∃ result, GenerateHelmIndexFile_loop repoRoot chartDirs indexFile = Return result.
Proof.
  revert indexFile. induction chartDirs as [|d rest IH]; intros indexFile Hok.
  - by eexists.
  - destruct (Hok d) as (parent & H1 & [base H2]); [by apply elem_of_cons; left|].
    simpl. rewrite H1, H2.
    destruct (LoadChartfile (d +:+ "Chart.yaml")) as [md|e]; [|by eexists].
    apply IH. intros chartDir Hin. apply Hok. apply elem_of_cons. by right.
Qed.

(** X13.  An error returned by GenerateHelmIndexFile is always the error
    of a manifest that failed to load: it comes from the first location
    whose Chart.yaml does not load, and the index returned with it is the
    one built from the locations before that one. *)
Theorem GenerateHelmIndexFile_error_is_load_error (sub : appv1.Subscription)
    (repoRoot : string) (chartDirs : list string) (indexFile : repo.IndexFile) (err : error) :
  GenerateHelmIndexFile sub repoRoot chartDirs = Return (indexFile, Some err) →
  ∃ pre chartDir post,
    chartDirs = (pre ++ chartDir :: post)%list ∧
    LoadChartfile (chartDir +:+ "Chart.yaml") = inr err ∧
    GenerateHelmIndexFile_loop repoRoot pre repo.NewIndexFile = Return (indexFile, None).
Proof.
  unfold GenerateHelmIndexFile.
  destruct (GenerateHelmIndexFile_loop repoRoot chartDirs repo.NewIndexFile)
    as [|[i [e|]]] eqn:E; [done| |done].
  intros [= <- <-]. by apply GenerateHelmIndexFile_loop_error.
Qed.

(** X14.  When the parent directory of a location does not hold
    repoRoot followed by a slash, so that the second piece SplitAfter is
    asked for does not exist, GenerateHelmIndexFile panics: no index and
    no error come back, whether or not the manifest there would load and
    whatever locations follow. *)
Theorem GenerateHelmIndexFile_panics (sub : appv1.Subscription) (repoRoot : string)
    (pre post : list string) (chartDir chartParentDir : string) (built : repo.IndexFile) :
  GenerateHelmIndexFile_loop repoRoot pre repo.NewIndexFile = Return (built, None) →
  strings_Split chartDir (filepath_Base chartDir) !! 0%nat = Some chartParentDir →
  strings_SplitAfter chartParentDir (repoRoot +:+ "/") !! 1%nat = None →
  GenerateHelmIndexFile sub repoRoot (pre ++ chartDir :: post)%list = Panic.
Proof.
  intros Hpre Hparent Hbase. unfold GenerateHelmIndexFile.
  rewrite (GenerateHelmIndexFile_loop_app _ _ _ _ _ Hpre). simpl.
  by rewrite Hparent, Hbase.
Qed.

(** X15.  When both index expressions are in range at every location,
    GenerateHelmIndexFile does not panic: it returns an index, with or
    without an error. *)
Theorem GenerateHelmIndexFile_returns (sub : appv1.Subscription) (repoRoot : string)
    (chartDirs : list string) :
  (∀ chartDir, chartDir ∈ chartDirs →
     ∃ chartParentDir,
       strings_Split chartDir (filepath_Base chartDir) !! 0%nat = Some chartParentDir ∧
       is_Some (strings_SplitAfter chartParentDir (repoRoot +:+ "/") !! 1%nat)) →
  ∃ indexFile err, GenerateHelmIndexFile sub repoRoot chartDirs = Return (indexFile, err).
Proof.
  intros Hok. unfold GenerateHelmIndexFile.
  destruct (GenerateHelmIndexFile_loop_returns repoRoot chartDirs repo.NewIndexFile Hok)
    as [[i [e|]] ->]; by eexists _, _.
Qed.

(** X16.  An index GenerateHelmIndexFile returns with a nil error is a
    filtered one: no bucket of it is empty, every chart version in it
    passes the three checks, and when the subscription names a package
    every bucket is under that name. *)
Theorem GenerateHelmIndexFile_success_filtered (sub : appv1.Subscription) (repoRoot : string)
    (chartDirs : list string) (indexFile : repo.IndexFile) (k : string)
    (l : list repo.ChartVersion) :
  GenerateHelmIndexFile sub repoRoot chartDirs = Return (indexFile, None) →
  repo.Entries indexFile !! k = Some l →
  l ≠ [] ∧
  (∀ chartVersion, chartVersion ∈ l → keepVersion sub chartVersion = true) ∧
  (appv1.Package (appv1.Spec sub) ≠ EmptyString → k = appv1.Package (appv1.Spec sub)).
Proof.
  unfold GenerateHelmIndexFile.
  destruct (GenerateHelmIndexFile_loop repoRoot chartDirs repo.NewIndexFile)
    as [|[i [e|]]]; [done|done|].
  intros [= <-]. rewrite filterCharts_lookup.
  destruct (decide (appv1.Package (appv1.Spec sub) = EmptyString
                    ∨ k = appv1.Package (appv1.Spec sub))) as [Hk|Hk]; [|done].
  destruct (repo.Entries (SortEntries i) !! k) as [l0|]; [|done]. simpl.
  intros [-> Hne]%keepBucket_Some. split; [done|]. split.
  - by intros cv [_ ?]%elem_of_filter_keepVersion.
  - intros Hp. by destruct Hk.
Qed.

(** X17.  GetPackageAlias returns a non-empty alias exactly when some
    override names the package and carries a non-empty alias. *)
Theorem GetPackageAlias_nonempty_iff (sub : appv1.Subscription) (packageName : string) :
  GetPackageAlias sub packageName ≠ EmptyString ↔
  ∃ o, o ∈ appv1.PackageOverrides (appv1.Spec sub) ∧
       appv1.PackageName o = packageName ∧ appv1.PackageAlias o ≠ EmptyString.
Proof.
  unfold GetPackageAlias.
  induction (appv1.PackageOverrides (appv1.Spec sub)) as [|o rest IH]; simpl.
  - split; [done|]. intros (o & Hin & _). by apply elem_of_nil in Hin.
  - destruct (decide (appv1.PackageName o = packageName)) as [Hn|Hn];
      [destruct (decide (appv1.PackageAlias o ≠ EmptyString)) as [Ha|Ha]|].
    + split; [|done]. intros _. exists o. split; [by apply elem_of_cons; left|done].
    + rewrite IH. split.
      * intros (o' & Hin & H). exists o'. split; [by apply elem_of_cons; right|done].
      * intros (o' & [->|Hin]%elem_of_cons & Hn' & Ha'); [done|]. by exists o'.
    + rewrite IH. split.
      * intros (o' & Hin & H). exists o'. split; [by apply elem_of_cons; right|done].
      * intros (o' & [->|Hin]%elem_of_cons & Hn' & Ha'); [done|]. by exists o'.
Qed.

(** X18.  Over two lists of overrides put end to end, the alias found is
    the one found in the first list when there is one, and otherwise the
    one found in the second. *)
Theorem GetPackageAlias_loop_app (overrides1 overrides2 : list appv1.Overrides)
    (packageName : string) :
  GetPackageAlias_loop (overrides1 ++ overrides2)%list packageName =
    if decide (GetPackageAlias_loop overrides1 packageName ≠ EmptyString)
    then GetPackageAlias_loop overrides1 packageName
    else GetPackageAlias_loop overrides2 packageName.
Proof.
  induction overrides1 as [|o rest IH].
  - done.
  - cbn [GetPackageAlias_loop app].
    destruct (decide (appv1.PackageName o = packageName)); [|done].
    destruct (decide (appv1.PackageAlias o ≠ EmptyString)); [|done].
    by rewrite decide_True.
Qed.

End helmrepo.

(** ** The claims on sample inputs *)

Abbreviation ref_checkTillerVersion :=
  (checkTillerVersion Reference.semver_Parse Reference.semver_ParseRange).
Abbreviation ref_checkVersion :=
  (checkVersion Reference.semver_Parse Reference.semver_ParseRange).
Abbreviation ref_VersionRangeMatcher :=
  (VersionRangeMatcher Reference.semver_Parse Reference.semver_ParseRange).
Abbreviation ref_keepVersion :=
  (keepVersion Reference.KeywordsChecker Reference.semver_Parse Reference.semver_ParseRange).
Abbreviation ref_filterOnVersion :=
  (filterOnVersion Reference.KeywordsChecker Reference.semver_Parse Reference.semver_ParseRange).
Abbreviation ref_filterCharts :=
  (filterCharts Reference.KeywordsChecker Reference.semver_Parse Reference.semver_ParseRange).
Abbreviation ref_GenerateHelmIndexFile_loop :=
  (GenerateHelmIndexFile_loop Reference.filepath_Base Reference.strings_Split
     Reference.strings_SplitAfter (Reference.LoadChartfile Samples.files)
     Reference.IndexFile_Add).
Abbreviation ref_GenerateHelmIndexFile :=
  (GenerateHelmIndexFile Reference.KeywordsChecker Reference.semver_Parse
     Reference.semver_ParseRange Reference.filepath_Base Reference.strings_Split
     Reference.strings_SplitAfter (Reference.LoadChartfile Samples.files)
     Reference.IndexFile_Add Reference.SortEntries).

(** C1 as stated fails: a subscription without a package name, and two
    charts that load.  The caller gets both buckets and a nil error. *)
Lemma filterCharts_missing_name_counterexample :
  appv1.Package (appv1.Spec Samples.sub_nameless) = EmptyString ∧
  ref_GenerateHelmIndexFile Samples.sub_nameless "/tmp/repo"
    ["/tmp/repo/charts/app/"; "/tmp/repo/charts/db/"]
  = Return (Samples.index [("app", [Samples.app_1_0_0]); ("db", [Samples.db_0_1_0])], None).
Proof. split; [reflexivity|]. vm_compute. reflexivity. Qed.

Lemma filterCharts_missing_name_witness :
  appv1.Package (appv1.Spec Samples.sub_nameless) = EmptyString ∧
  (removeNoMatchingName Samples.sub_nameless Samples.app_db).2
    = Some (missingNameError Samples.sub_nameless) ∧
  ref_filterCharts Samples.sub_nameless Samples.app_db
    = ref_filterOnVersion Samples.sub_nameless Samples.app_db.
Proof.
  split; [reflexivity|].
  destruct (filterCharts_missing_name Reference.KeywordsChecker Reference.semver_Parse
              Reference.semver_ParseRange Reference.filepath_Base Reference.strings_Split
              Reference.strings_SplitAfter (Reference.LoadChartfile Samples.files)
              Reference.IndexFile_Add Reference.SortEntries
              Samples.sub_nameless Samples.app_db eq_refl) as (H1 & H2 & _).
  split; [exact H1|exact H2].
Defined.

(** C2 as stated fails: the annotation asks for tiller 2.5.0, the chart
    names no tiller version, and the check passes. *)
Lemma checkTillerVersion_no_tiller_counterexample :
  (∃ pf annotations filterTillerVersion,
     appv1.PackageFilter (appv1.Spec Samples.sub_tiller_exact) = Some pf ∧
     appv1.Annotations pf = Some annotations ∧
     annotations !! "tillerVersion" = Some filterTillerVersion) ∧
  repo.GetTillerVersion Samples.app_1_0_0 = EmptyString ∧
  ref_checkTillerVersion Samples.sub_tiller_exact Samples.app_1_0_0 ≠ false.
Proof.
  split; [|split; [reflexivity|by vm_compute]].
  eexists _, _, _. split; [reflexivity|]. split; reflexivity.
Qed.

Lemma checkTillerVersion_no_tiller_witness :
  repo.GetTillerVersion Samples.app_1_0_0 = EmptyString ∧
  ref_checkTillerVersion Samples.sub_tiller_exact Samples.app_1_0_0 = true.
Proof.
  split; [reflexivity|].
  apply (checkTillerVersion_no_tiller Reference.semver_Parse Reference.semver_ParseRange
           Samples.sub_tiller_exact Samples.app_1_0_0).
  reflexivity.
Defined.

(** C3 as stated fails: the annotation is the range >=2.0.0 and the chart's
    tillerVersion is 2.5.0.  The range matcher called as (annotation, chart
    tillerVersion) accepts, yet the check fails, because the annotation is
    the side parsed as an exact version. *)
Lemma checkTillerVersion_range_of_chart_counterexample :
  appv1.PackageFilter (appv1.Spec Samples.sub_tiller_range)
    = Some (Samples.packageFilter None (Some ">=2.0.0") EmptyString) ∧
  repo.GetTillerVersion Samples.app_tiller_exact = "2.5.0" ∧
  ref_VersionRangeMatcher ">=2.0.0" "2.5.0" = Some true ∧
  ref_checkTillerVersion Samples.sub_tiller_range Samples.app_tiller_exact = false.
Proof. repeat split; vm_compute; reflexivity. Qed.

Lemma checkTillerVersion_range_of_chart_witness :
  ref_checkTillerVersion Samples.sub_tiller_exact Samples.app_tiller_range = true ↔
  ref_VersionRangeMatcher ">=2.4.0" "2.5.0" = Some true.
Proof.
  apply (checkTillerVersion_range_of_chart Reference.semver_Parse Reference.semver_ParseRange
           Samples.sub_tiller_exact Samples.app_tiller_range
           (Samples.packageFilter None (Some "2.5.0") EmptyString)
           {[ "tillerVersion" := "2.5.0" ]} "2.5.0").
  - reflexivity.
  - reflexivity.
  - vm_compute. reflexivity.
  - discriminate.
Defined.

Lemma filterCharts_subset_witness :
  appv1.Package (appv1.Spec Samples.sub_app_range) ≠ EmptyString ∧
  repo.Entries (ref_filterCharts Samples.sub_app_range Samples.app_db) !! "app"
    = Some [Samples.app_2_0_0] ∧
  ([Samples.app_2_0_0] ≠ [] ∧
   ∃ l, repo.Entries Samples.app_db !! "app" = Some l ∧
        [Samples.app_2_0_0] `sublist_of` l ∧
        [Samples.app_2_0_0] = List.filter (ref_keepVersion Samples.sub_app_range) l) ∧
  repo.Entries (ref_filterCharts Samples.sub_app_above Samples.app_db) !! "app" = None.
Proof.
  split; [discriminate|]. split; [vm_compute; reflexivity|]. split.
  - apply (filterCharts_subset Reference.KeywordsChecker Reference.semver_Parse
             Reference.semver_ParseRange Samples.sub_app_range Samples.app_db
             ltac:(discriminate)).
    vm_compute. reflexivity.
  - apply (proj2 (filterCharts_subset Reference.KeywordsChecker Reference.semver_Parse
                    Reference.semver_ParseRange Samples.sub_app_above Samples.app_db
                    ltac:(discriminate))
             "app" [Samples.app_2_0_0; Samples.app_1_0_0]).
    + vm_compute. reflexivity.
    + intros chartVersion Hin.
      apply elem_of_cons in Hin as [->|Hin];
        [|apply elem_of_cons in Hin as [->|Hin]; [|by apply elem_of_nil in Hin]];
        vm_compute; reflexivity.
Defined.

Lemma filterCharts_only_name_witness :
  (∀ keywords, Reference.KeywordsChecker None keywords = true) ∧
  onlyPackageName Samples.sub_app ∧
  nonEmptyBuckets Samples.app_db ∧
  repo.Entries (ref_filterCharts Samples.sub_app Samples.app_db) !! "app"
    = Some [Samples.app_2_0_0; Samples.app_1_0_0] ∧
  repo.Entries (ref_filterCharts Samples.sub_app Samples.app_db) !! "db" = None.
Proof.
  assert (Hk : ∀ keywords, Reference.KeywordsChecker None keywords = true)
    by (intros; reflexivity).
  assert (Hs : onlyPackageName Samples.sub_app) by (split; [discriminate|exact I]).
  assert (Hi : nonEmptyBuckets Samples.app_db)
    by (apply (bool_decide_unpack
                 (map_Forall (λ _ (l : list repo.ChartVersion), l ≠ [])
                    (repo.Entries Samples.app_db))); vm_compute; exact I).
  split; [exact Hk|]. split; [exact Hs|]. split; [exact Hi|]. split.
  - rewrite (filterCharts_only_name Reference.KeywordsChecker Reference.semver_Parse
               Reference.semver_ParseRange Samples.sub_app Samples.app_db "app" Hk Hs Hi).
    vm_compute. reflexivity.
  - rewrite (filterCharts_only_name Reference.KeywordsChecker Reference.semver_Parse
               Reference.semver_ParseRange Samples.sub_app Samples.app_db "db" Hk Hs Hi).
    vm_compute. reflexivity.
Defined.

Lemma filterCharts_idempotent_witness :
  appv1.Package (appv1.Spec Samples.sub_app_range) ≠ EmptyString ∧
  ref_filterCharts Samples.sub_app_range (ref_filterCharts Samples.sub_app_range Samples.app_db)
  = ref_filterCharts Samples.sub_app_range Samples.app_db.
Proof.
  split; [discriminate|].
  apply (filterCharts_idempotent Reference.KeywordsChecker Reference.semver_Parse
           Reference.semver_ParseRange Samples.sub_app_range Samples.app_db).
  discriminate.
Defined.

Lemma checkVersion_malformed_witness :
  Reference.semver_Parse (repo.GetVersion Samples.app_malformed) = None ∧
  ref_checkVersion Samples.sub_app_range Samples.app_malformed = false ∧
  repo.Entries (ref_filterOnVersion Samples.sub_app_range Samples.app_with_malformed) !! "app"
    = Some [Samples.app_2_0_0] ∧
  (Samples.app_malformed ∉ [Samples.app_2_0_0]) ∧
  repo.Entries (ref_filterOnVersion Samples.sub_app_range Samples.only_malformed) !! "app"
    = None ∧
  ref_checkVersion Samples.sub_app Samples.app_malformed = true ∧
  (∃ l', repo.Entries (ref_filterOnVersion Samples.sub_app Samples.app_with_malformed) !! "app"
         = Some l' ∧ Samples.app_malformed ∈ l').
Proof.
  assert (Hp : Reference.semver_Parse (repo.GetVersion Samples.app_malformed) = None)
    by (vm_compute; reflexivity).
  destruct (checkVersion_malformed Reference.KeywordsChecker Reference.semver_Parse
              Reference.semver_ParseRange Samples.sub_app_range Samples.app_malformed Hp)
    as (Hset & _ & Hrest).
  destruct (checkVersion_malformed Reference.KeywordsChecker Reference.semver_Parse
              Reference.semver_ParseRange Samples.sub_app Samples.app_malformed Hp)
    as (_ & Hunset & _).
  destruct (Hset (Samples.packageFilter None None ">=1.5.0") eq_refl ltac:(discriminate))
    as [Hfalse Habsent].
  destruct (Hunset (or_introl eq_refl)) as [Htrue Hkept].
  assert (Hbucket :
    repo.Entries (ref_filterOnVersion Samples.sub_app_range Samples.app_with_malformed) !! "app"
    = Some [Samples.app_2_0_0]).
  { apply (Hrest Samples.app_with_malformed "app"
             [Samples.app_2_0_0; Samples.app_malformed; Samples.app_1_0_0]
             ltac:(vm_compute; reflexivity)
             ltac:(apply list_elem_of_In; simpl; tauto)
             "app" [Samples.app_2_0_0; Samples.app_malformed; Samples.app_1_0_0]
             Samples.app_2_0_0
             ltac:(vm_compute; reflexivity)
             ltac:(apply list_elem_of_In; simpl; tauto)
             ltac:(vm_compute; reflexivity)). }
  split; [exact Hp|]. split; [exact Hfalse|]. split; [exact Hbucket|].
  split; [|split; [|split]].
  - exact (proj1 (Habsent Samples.app_with_malformed "app" [Samples.app_2_0_0]) Hbucket).
  - vm_compute. reflexivity.
  - exact Htrue.
  - apply (Hkept Samples.app_with_malformed "app"
             [Samples.app_2_0_0; Samples.app_malformed; Samples.app_1_0_0]).
    + vm_compute. reflexivity.
    + apply list_elem_of_In. simpl. tauto.
    + vm_compute. reflexivity.
    + vm_compute. reflexivity.
Defined.

Lemma GenerateHelmIndexFile_load_failure_witness :
  ref_GenerateHelmIndexFile_loop "/tmp/repo" ["/tmp/repo/charts/app/"] repo.NewIndexFile
    = Return (Samples.index [("app", [Samples.app_1_0_0])], None) ∧
  Reference.LoadChartfile Samples.files "/tmp/repo/charts/broken/Chart.yaml"
    = inr "open /tmp/repo/charts/broken/Chart.yaml: no such file or directory" ∧
  ref_GenerateHelmIndexFile Samples.sub_app "/tmp/repo"
    ["/tmp/repo/charts/app/"; "/tmp/repo/charts/broken/"; "/tmp/repo/charts/db/"]
  = Return (Samples.index [("app", [Samples.app_1_0_0])],
            Some "open /tmp/repo/charts/broken/Chart.yaml: no such file or directory").
Proof.
  split; [vm_compute; reflexivity|]. split; [vm_compute; reflexivity|].
  apply (GenerateHelmIndexFile_load_failure Reference.KeywordsChecker Reference.semver_Parse
           Reference.semver_ParseRange Reference.filepath_Base Reference.strings_Split
           Reference.strings_SplitAfter (Reference.LoadChartfile Samples.files)
           Reference.IndexFile_Add Reference.SortEntries
           Samples.sub_app "/tmp/repo" ["/tmp/repo/charts/app/"] ["/tmp/repo/charts/db/"]
           "/tmp/repo/charts/broken/" "/tmp/repo/charts/" "charts/").
  - vm_compute. reflexivity.
  - vm_compute. reflexivity.
  - vm_compute. reflexivity.
  - vm_compute. reflexivity.
Defined.

Lemma removeNoMatchingName_missing_name_witness :
  appv1.Package (appv1.Spec Samples.sub_nameless) = EmptyString ∧
  removeNoMatchingName Samples.sub_nameless Samples.app_db
  = (Samples.app_db,
     Some "subsciption.spec.name is missing for subscription: default/sample").
Proof.
  split; [reflexivity|].
  apply (removeNoMatchingName_missing_name Samples.sub_nameless Samples.app_db).
  reflexivity.
Defined.

(** ** The scenarios of the design document *)

(** Index app: [2.0.0; 1.0.0] under the range >=1.5.0 keeps 2.0.0 only. *)
Example filterCharts_end_to_end :
  repo.Entries (ref_filterCharts Samples.sub_app_range Samples.app_db)
  = {[ "app" := [Samples.app_2_0_0] ]}.
Proof. vm_compute. reflexivity. Qed.

(** A bucket whose versions all fail is absent afterwards, not empty. *)
Example filterCharts_prunes_empty_bucket :
  repo.Entries
    (ref_filterCharts
       (Samples.subscription "app" (Some (Samples.packageFilter None None ">=3.0.0")) [])
       Samples.app_db) !! "app" = None.
Proof. vm_compute. reflexivity. Qed.

(** The range >=1.2.3 <2.0.0 holds 1.5.0 and neither 2.0.0 nor 1.2.2. *)
Example VersionRangeMatcher_containment :
  ref_VersionRangeMatcher ">=1.2.3 <2.0.0" "1.5.0" = Some true ∧
  ref_VersionRangeMatcher ">=1.2.3 <2.0.0" "2.0.0" = Some false ∧
  ref_VersionRangeMatcher ">=1.2.3 <2.0.0" "1.2.2" = Some false.
Proof. repeat split; vm_compute; reflexivity. Qed.

(** ** The further properties on sample inputs *)

Abbreviation ref_checkKeywords := (checkKeywords Reference.KeywordsChecker).

Lemma removeNoMatchingName_named_witness :
  appv1.Package (appv1.Spec Samples.sub_app) ≠ EmptyString ∧
  (removeNoMatchingName Samples.sub_app Samples.app_db).2 = None ∧
  repo.Entries (removeNoMatchingName Samples.sub_app Samples.app_db).1 !! "app"
    = Some [Samples.app_2_0_0; Samples.app_1_0_0] ∧
  repo.Entries (removeNoMatchingName Samples.sub_app Samples.app_db).1 !! "db" = None.
Proof.
  assert (Hp : appv1.Package (appv1.Spec Samples.sub_app) ≠ EmptyString) by discriminate.
  destruct (removeNoMatchingName_named Samples.sub_app Samples.app_db Hp) as [H1 H2].
  split; [exact Hp|]. split; [exact H1|]. split.
  - rewrite (H2 "app"). vm_compute. reflexivity.
  - rewrite (H2 "db"). vm_compute. reflexivity.
Defined.

Lemma removeNoMatchingName_any_order_witness :
  ["db"; "app"] ≡ₚ range_keys (repo.Entries Samples.app_db) ∧
  appv1.Package (appv1.Spec Samples.sub_app) ≠ EmptyString ∧
  removeNoMatchingName_loop "app" ["db"; "app"] (repo.Entries Samples.app_db)
  = repo.Entries (removeNoMatchingName Samples.sub_app Samples.app_db).1.
Proof.
  assert (Hperm : ["db"; "app"] ≡ₚ range_keys (repo.Entries Samples.app_db)).
  { change (range_keys (repo.Entries Samples.app_db)) with ["app"; "db"]. apply perm_swap. }
  split; [exact Hperm|]. split; [discriminate|].
  apply (removeNoMatchingName_any_order Samples.sub_app Samples.app_db ["db"; "app"] Hperm).
  discriminate.
Defined.

Lemma filterOnVersion_any_order_witness :
  ["db"; "app"] ≡ₚ range_keys (repo.Entries Samples.app_db) ∧
  filterOnVersion_loop Reference.KeywordsChecker Reference.semver_Parse
    Reference.semver_ParseRange Samples.sub_app_range ["db"; "app"]
    (repo.Entries Samples.app_db)
  = repo.Entries (ref_filterOnVersion Samples.sub_app_range Samples.app_db).
Proof.
  assert (Hperm : ["db"; "app"] ≡ₚ range_keys (repo.Entries Samples.app_db)).
  { change (range_keys (repo.Entries Samples.app_db)) with ["app"; "db"]. apply perm_swap. }
  split; [exact Hperm|].
  apply (filterOnVersion_any_order Reference.KeywordsChecker Reference.semver_Parse
           Reference.semver_ParseRange Samples.sub_app_range Samples.app_db
           ["db"; "app"] Hperm).
Defined.

Lemma filterCharts_sound_witness :
  repo.Entries (ref_filterCharts Samples.sub_app_range Samples.app_db) !! "app"
    = Some [Samples.app_2_0_0] ∧
  Samples.app_2_0_0 ∈ [Samples.app_2_0_0] ∧
  ref_checkKeywords Samples.sub_app_range Samples.app_2_0_0 = true ∧
  ref_checkTillerVersion Samples.sub_app_range Samples.app_2_0_0 = true ∧
  ref_checkVersion Samples.sub_app_range Samples.app_2_0_0 = true.
Proof.
  assert (Hl : repo.Entries (ref_filterCharts Samples.sub_app_range Samples.app_db) !! "app"
               = Some [Samples.app_2_0_0]) by (vm_compute; reflexivity).
  assert (Hin : Samples.app_2_0_0 ∈ [Samples.app_2_0_0]) by (apply elem_of_cons; by left).
  destruct (filterCharts_sound Reference.KeywordsChecker Reference.semver_Parse
              Reference.semver_ParseRange Samples.sub_app_range Samples.app_db "app"
              [Samples.app_2_0_0] Samples.app_2_0_0 Hl Hin) as (H1 & H2 & H3 & _).
  split; [exact Hl|]. split; [exact Hin|]. split; [exact H1|]. split; [exact H2|exact H3].
Defined.

Lemma filterCharts_complete_witness :
  repo.Entries Samples.app_db !! "app" = Some [Samples.app_2_0_0; Samples.app_1_0_0] ∧
  ref_keepVersion Samples.sub_app_range Samples.app_2_0_0 = true ∧
  ∃ l', repo.Entries (ref_filterCharts Samples.sub_app_range Samples.app_db) !! "app" = Some l'
        ∧ Samples.app_2_0_0 ∈ l'.
Proof.
  split; [vm_compute; reflexivity|]. split; [vm_compute; reflexivity|].
  apply (filterCharts_complete Reference.KeywordsChecker Reference.semver_Parse
           Reference.semver_ParseRange Samples.sub_app_range Samples.app_db "app"
           [Samples.app_2_0_0; Samples.app_1_0_0] Samples.app_2_0_0).
  - vm_compute. reflexivity.
  - apply elem_of_cons. by left.
  - right. reflexivity.
  - vm_compute. reflexivity.
  - vm_compute. reflexivity.
  - vm_compute. reflexivity.
Defined.

Lemma filterCharts_at_most_one_bucket_witness :
  appv1.Package (appv1.Spec Samples.sub_app) ≠ EmptyString ∧
  (size (repo.Entries (ref_filterCharts Samples.sub_app Samples.app_db)) ≤ 1)%nat.
Proof.
  split; [discriminate|].
  apply (filterCharts_at_most_one_bucket Reference.KeywordsChecker Reference.semver_Parse
           Reference.semver_ParseRange Samples.sub_app Samples.app_db).
  discriminate.
Defined.

Lemma filterCharts_missing_bucket_witness :
  appv1.Package (appv1.Spec Samples.sub_web) ≠ EmptyString ∧
  repo.Entries Samples.app_db !! "web" = None ∧
  repo.Entries (ref_filterCharts Samples.sub_web Samples.app_db) = ∅.
Proof.
  split; [discriminate|]. split; [vm_compute; reflexivity|].
  apply (filterCharts_missing_bucket Reference.KeywordsChecker Reference.semver_Parse
           Reference.semver_ParseRange Samples.sub_web Samples.app_db).
  - discriminate.
  - vm_compute. reflexivity.
Defined.

Lemma checkVersion_range_of_subscription_witness :
  ref_checkVersion Samples.sub_app_range Samples.app_2_0_0 = true ↔
  ref_VersionRangeMatcher ">=1.5.0" "2.0.0" = Some true.
Proof.
  apply (checkVersion_range_of_subscription Reference.semver_Parse Reference.semver_ParseRange
           Samples.sub_app_range Samples.app_2_0_0 (Samples.packageFilter None None ">=1.5.0")).
  - reflexivity.
  - discriminate.
Defined.

Lemma filterCharts_unparsable_range_witness :
  Reference.semver_ParseRange "latest" = None ∧
  repo.Entries (ref_filterCharts Samples.sub_app_unparsable Samples.app_db) = ∅.
Proof.
  split; [vm_compute; reflexivity|].
  apply (filterCharts_unparsable_range Reference.KeywordsChecker Reference.semver_Parse
           Reference.semver_ParseRange Samples.sub_app_unparsable Samples.app_db
           (Samples.packageFilter None None "latest")).
  - reflexivity.
  - discriminate.
  - vm_compute. reflexivity.
Defined.

Lemma GenerateHelmIndexFile_error_is_load_error_witness :
  ∃ pre chartDir post,
    ["/tmp/repo/charts/app/"; "/tmp/repo/charts/broken/"; "/tmp/repo/charts/db/"]
      = (pre ++ chartDir :: post)%list ∧
    Reference.LoadChartfile Samples.files (chartDir +:+ "Chart.yaml")
      = inr "open /tmp/repo/charts/broken/Chart.yaml: no such file or directory" ∧
    ref_GenerateHelmIndexFile_loop "/tmp/repo" pre repo.NewIndexFile
      = Return (Samples.index [("app", [Samples.app_1_0_0])], None).
Proof.
  apply (GenerateHelmIndexFile_error_is_load_error Reference.KeywordsChecker
           Reference.semver_Parse Reference.semver_ParseRange Reference.filepath_Base
           Reference.strings_Split Reference.strings_SplitAfter
           (Reference.LoadChartfile Samples.files) Reference.IndexFile_Add
           Reference.SortEntries Samples.sub_app "/tmp/repo").
  vm_compute. reflexivity.
Defined.

Lemma GenerateHelmIndexFile_panics_witness :
  Reference.strings_SplitAfter "/srv/other/charts/" "/tmp/repo/" !! 1%nat = None ∧
  ref_GenerateHelmIndexFile Samples.sub_app "/tmp/repo"
    ["/tmp/repo/charts/app/"; "/srv/other/charts/app/"; "/tmp/repo/charts/db/"] = Panic.
Proof.
  split; [vm_compute; reflexivity|].
  apply (GenerateHelmIndexFile_panics Reference.KeywordsChecker Reference.semver_Parse
           Reference.semver_ParseRange Reference.filepath_Base Reference.strings_Split
           Reference.strings_SplitAfter (Reference.LoadChartfile Samples.files)
           Reference.IndexFile_Add Reference.SortEntries
           Samples.sub_app "/tmp/repo" ["/tmp/repo/charts/app/"] ["/tmp/repo/charts/db/"]
           "/srv/other/charts/app/" "/srv/other/charts/"
           (Samples.index [("app", [Samples.app_1_0_0])])).
  - vm_compute. reflexivity.
  - vm_compute. reflexivity.
  - vm_compute. reflexivity.
Defined.

Lemma GenerateHelmIndexFile_returns_witness :
  ∃ indexFile err,
    ref_GenerateHelmIndexFile Samples.sub_app "/tmp/repo"
      ["/tmp/repo/charts/app/"; "/tmp/repo/charts/broken/"] = Return (indexFile, err).
Proof.
  apply (GenerateHelmIndexFile_returns Reference.KeywordsChecker Reference.semver_Parse
           Reference.semver_ParseRange Reference.filepath_Base Reference.strings_Split
           Reference.strings_SplitAfter (Reference.LoadChartfile Samples.files)
           Reference.IndexFile_Add Reference.SortEntries Samples.sub_app "/tmp/repo").
  intros chartDir Hin.
  apply elem_of_cons in Hin as [->|Hin];
    [|apply elem_of_cons in Hin as [->|Hin]; [|by apply elem_of_nil in Hin]].
  - exists "/tmp/repo/charts/". split; [vm_compute; reflexivity|].
    exists "charts/". vm_compute. reflexivity.
  - exists "/tmp/repo/charts/". split; [vm_compute; reflexivity|].
    exists "charts/". vm_compute. reflexivity.
Defined.

Lemma GenerateHelmIndexFile_success_filtered_witness :
  ref_GenerateHelmIndexFile Samples.sub_app "/tmp/repo"
    ["/tmp/repo/charts/app/"; "/tmp/repo/charts/db/"]
  = Return (Samples.index [("app", [Samples.app_1_0_0])], None) ∧
  [Samples.app_1_0_0] ≠ [] ∧
  ∀ chartVersion, chartVersion ∈ [Samples.app_1_0_0] →
    ref_keepVersion Samples.sub_app chartVersion = true.
Proof.
  assert (Hrun : ref_GenerateHelmIndexFile Samples.sub_app "/tmp/repo"
                   ["/tmp/repo/charts/app/"; "/tmp/repo/charts/db/"]
                 = Return (Samples.index [("app", [Samples.app_1_0_0])], None))
    by (vm_compute; reflexivity).
  split; [exact Hrun|].
  destruct (GenerateHelmIndexFile_success_filtered Reference.KeywordsChecker
              Reference.semver_Parse Reference.semver_ParseRange Reference.filepath_Base
              Reference.strings_Split Reference.strings_SplitAfter
              (Reference.LoadChartfile Samples.files) Reference.IndexFile_Add
              Reference.SortEntries Samples.sub_app "/tmp/repo"
              ["/tmp/repo/charts/app/"; "/tmp/repo/charts/db/"]
              (Samples.index [("app", [Samples.app_1_0_0])]) "app" [Samples.app_1_0_0]
              Hrun ltac:(vm_compute; reflexivity)) as (H1 & H2 & _).
  split; [exact H1|exact H2].
Defined.
